(** * Row-level data-scope filter of the RuoYi FastAPI backend

    A shallow embedding of [module_admin/aspect/data_scope.py]
    ([GetDataScope.__init__] and [GetDataScope.__call__]) together with the
    way the DAO layer consumes its result ([eval(data_scope_sql)] inside a
    [where(...)]), and the properties of the filter. *)

From Stdlib Require Import ZArith String List Bool Lia Ascii DecimalString Permutation.
Import ListNotations.
Open Scope string_scope.

(** ** The Python primitives the builder relies on *)

Module Py.

(** [str(n)] for an [int], as an f-string field [{n}] formats it. *)
Definition str_int (z : Z) : string := NilEmpty.string_of_int (Z.to_int z).

(** [sep.join(l)]. *)
Definition join (sep : string) (l : list string) : string := String.concat sep l.

(** [repr] of a list of ints, as an f-string field formats a list:
    [[1, 2, 3]]. *)
Definition repr_int_list (l : list Z) : string :=
  "[" ++ join ", " (map str_int l) ++ "]".

(** Membership of a key in an insertion-ordered dict (keys only: every
    value of [dict.fromkeys] is [None]). *)
Definition dict_has (d : list string) (k : string) : bool :=
  existsb (String.eqb k) d.

(** [d[k] = None]: a key already present keeps its position, a new key goes
    last. *)
Definition dict_set (d : list string) (k : string) : list string :=
  if dict_has d k then d else d ++ [k].

(** [list(dict.fromkeys(l))]. *)
Definition fromkeys (l : list string) : list string :=
  fold_left dict_set l [].

(** The members of a comma-separated list, as [s.split(',')] returns them
    and as [find_in_set] reads its second argument. *)
Fixpoint split_commas_from (cur : string) (s : string) : list string :=
  match s with
  | EmptyString => [cur]
  | String c rest =>
      if Ascii.eqb c ","%char
      then cur :: split_commas_from EmptyString rest
      else split_commas_from (cur ++ String c EmptyString) rest
  end.

Definition split_commas (s : string) : list string :=
  split_commas_from EmptyString s.

End Py.

(** ** Data model *)

(** Modelled from the spec: [module_admin/entity/vo/user_vo.py] (the pydantic
    models [RoleModel], [UserInfoModel] and [CurrentUserModel]) is missing;
    only the attributes [__call__] reads are kept.  The spec's data model
    gives a role an identifier and a [data_scope], a user an identifier, a
    home department identifier (both [int]), the administrator flag and the
    list of held roles.  [data_scope] is the string the source compares with
    its constants, so any string is a possible value. *)
Record RoleModel := mkRole {
  role_id : Z;
  data_scope : string
}.

Record UserInfoModel := mkUser {
  user_id : Z;
  dept_id : Z;
  admin : bool;
  role : list RoleModel
}.

Record CurrentUserModel := mkCurrent {
  user : UserInfoModel
}.

(** The instance attributes set by [GetDataScope.__init__]. *)
Record GetDataScope := mkScope {
  query_alias : string;
  db_alias : string;
  user_alias : string;
  dept_alias : string
}.

(** [GetDataScope(query_alias)]: the other three arguments default to
    ['db'], ['user_id'] and ['dept_id']. *)
Definition init (q : string) : GetDataScope := mkScope q "db" "user_id" "dept_id".

Definition DATA_SCOPE_ALL : string := "1".
Definition DATA_SCOPE_CUSTOM : string := "2".
Definition DATA_SCOPE_DEPT : string := "3".
Definition DATA_SCOPE_DEPT_AND_CHILD : string := "4".
Definition DATA_SCOPE_SELF : string := "5".

(** ** [GetDataScope.__call__] *)

(** [[item.role_id for item in current_user.user.role
      if item.data_scope == self.DATA_SCOPE_CUSTOM]] *)
Definition custom_data_scope_role_id_list (current_user : CurrentUserModel) : list Z :=
  map role_id
      (filter (fun item => data_scope item =? DATA_SCOPE_CUSTOM)
              (role (user current_user))).

(** What one pass through the body of the [for role in ...] loop does:
    either it resets the list to [['1 == 1']] and breaks, or it appends one
    string. *)
Inductive branch :=
| Short_circuit
| Append (sql : string).

Definition role_branch (self : GetDataScope) (current_user : CurrentUserModel)
           (r : RoleModel) : branch :=
  let user_id := user_id (user current_user) in
  let dept_id := dept_id (user current_user) in
  let ids := custom_data_scope_role_id_list current_user in
  let qa := query_alias self in
  let da := dept_alias self in
  let ua := user_alias self in
  if admin (user current_user) || (data_scope r =? DATA_SCOPE_ALL) then
    Short_circuit
  else if data_scope r =? DATA_SCOPE_CUSTOM then
    if (1 <? List.length ids)%nat then
      Append (qa ++ "." ++ da
              ++ ".in_(select(SysRoleDept.dept_id).where(SysRoleDept.role_id.in_("
              ++ Py.repr_int_list ids ++ "))) if hasattr("
              ++ qa ++ ", '" ++ da ++ "') else 1 == 0")
    else
      Append (qa ++ "." ++ da
              ++ ".in_(select(SysRoleDept.dept_id).where(SysRoleDept.role_id == "
              ++ Py.str_int (role_id r) ++ ")) if hasattr("
              ++ qa ++ ", '" ++ da ++ "') else 1 == 0")
  else if data_scope r =? DATA_SCOPE_DEPT then
    Append (qa ++ "." ++ da ++ " == " ++ Py.str_int dept_id
            ++ " if hasattr(" ++ qa ++ ", '" ++ da ++ "') else 1 == 0")
  else if data_scope r =? DATA_SCOPE_DEPT_AND_CHILD then
    Append (qa ++ "." ++ da
            ++ ".in_(select(SysDept.dept_id).where(or_(SysDept.dept_id == "
            ++ Py.str_int dept_id ++ ", func.find_in_set("
            ++ Py.str_int dept_id ++ ", SysDept.ancestors)))) if hasattr("
            ++ qa ++ ", '" ++ da ++ "') else 1 == 0")
  else if data_scope r =? DATA_SCOPE_SELF then
    Append (qa ++ "." ++ ua ++ " == " ++ Py.str_int user_id
            ++ " if hasattr(" ++ qa ++ ", '" ++ ua ++ "') else 1 == 0")
  else
    Append "1 == 0".

(** The [for] loop, started with the list accumulated so far. *)
Fixpoint for_each_role (self : GetDataScope) (current_user : CurrentUserModel)
         (roles : list RoleModel) (param_sql_list : list string) : list string :=
  match roles with
  | [] => param_sql_list
  | r :: rest =>
      match role_branch self current_user r with
      | Short_circuit => ["1 == 1"]
      | Append sql => for_each_role self current_user rest (param_sql_list ++ [sql])
      end
  end.

(** [param_sql_list] when the loop is left. *)
Definition collected (self : GetDataScope) (current_user : CurrentUserModel) : list string :=
  for_each_role self current_user (role (user current_user)) [].

(** [param_sql_list] after [list(dict.fromkeys(param_sql_list))]. *)
Definition param_sql_list (self : GetDataScope) (current_user : CurrentUserModel) : list string :=
  Py.fromkeys (collected self current_user).

(** The returned [param_sql]. *)
Definition call (self : GetDataScope) (current_user : CurrentUserModel) : string :=
  "or_(" ++ Py.join ", " (param_sql_list self current_user) ++ ")".

(** ** The operands as expressions

    Every string the loop appends is an instance of one of a few fixed
    templates.  [operand] names the templates, [render] writes one out for a
    given [GetDataScope] instance. *)

(** The test applied to a column [<query_alias>.<col>]. *)
Inductive condition :=
| Equals (v : Z)
    (* <col> == v *)
| In_role_depts_of (rid : Z)
    (* <col>.in_(select(SysRoleDept.dept_id).where(SysRoleDept.role_id == rid)) *)
| In_role_depts_among (rids : list Z)
    (* <col>.in_(select(SysRoleDept.dept_id).where(SysRoleDept.role_id.in_(rids))) *)
| In_dept_subtree (d : Z).
    (* <col>.in_(select(SysDept.dept_id).where(or_(SysDept.dept_id == d,
                                                  func.find_in_set(d, SysDept.ancestors)))) *)

Inductive operand :=
| Always
    (* 1 == 1 *)
| Never
    (* 1 == 0 *)
| Guarded (col : string) (c : condition).
    (* <query_alias>.<col><c> if hasattr(<query_alias>, '<col>') else 1 == 0 *)

Definition render_condition (c : condition) : string :=
  match c with
  | Equals v => " == " ++ Py.str_int v
  | In_role_depts_of rid =>
      ".in_(select(SysRoleDept.dept_id).where(SysRoleDept.role_id == "
      ++ Py.str_int rid ++ "))"
  | In_role_depts_among rids =>
      ".in_(select(SysRoleDept.dept_id).where(SysRoleDept.role_id.in_("
      ++ Py.repr_int_list rids ++ ")))"
  | In_dept_subtree d =>
      ".in_(select(SysDept.dept_id).where(or_(SysDept.dept_id == "
      ++ Py.str_int d ++ ", func.find_in_set("
      ++ Py.str_int d ++ ", SysDept.ancestors))))"
  end.

Definition render (self : GetDataScope) (op : operand) : string :=
  match op with
  | Always => "1 == 1"
  | Never => "1 == 0"
  | Guarded col c =>
      query_alias self ++ "." ++ col ++ render_condition c
      ++ " if hasattr(" ++ query_alias self ++ ", '" ++ col ++ "') else 1 == 0"
  end.

(** The template instance a role that does not short-circuit contributes. *)
Definition role_operand (self : GetDataScope) (current_user : CurrentUserModel)
           (r : RoleModel) : operand :=
  if data_scope r =? DATA_SCOPE_CUSTOM then
    if (1 <? List.length (custom_data_scope_role_id_list current_user))%nat
    then Guarded (dept_alias self)
                 (In_role_depts_among (custom_data_scope_role_id_list current_user))
    else Guarded (dept_alias self) (In_role_depts_of (role_id r))
  else if data_scope r =? DATA_SCOPE_DEPT then
    Guarded (dept_alias self) (Equals (dept_id (user current_user)))
  else if data_scope r =? DATA_SCOPE_DEPT_AND_CHILD then
    Guarded (dept_alias self) (In_dept_subtree (dept_id (user current_user)))
  else if data_scope r =? DATA_SCOPE_SELF then
    Guarded (user_alias self) (Equals (user_id (user current_user)))
  else Never.

(** ** What the DAO layer makes of the result

    The DAOs pass [eval(data_scope_sql)] to [where(...)].  Evaluating an
    operand is Python: the conditional expression probes the mapped class
    with [hasattr] and only then touches the attribute.  The outcome is
    either a Python [bool] or a column test, which the database then decides
    row by row. *)

Module Db.

(** One row of [sys_role_dept]: a department granted to a role. *)
Record SysRoleDept := mkRoleDept {
  rd_role_id : Z;
  rd_dept_id : Z
}.

(** One row of [sys_dept]: a department and its ancestors chain, the
    comma-separated identifiers from the root to the direct parent. *)
Record SysDept := mkDept {
  d_dept_id : Z;
  d_ancestors : string
}.

Record t := mk {
  sys_role_dept : list SysRoleDept;
  sys_dept : list SysDept
}.

(** [select(SysRoleDept.dept_id).where(SysRoleDept.role_id == rid)] *)
Definition granted (db : t) (rid : Z) : list Z :=
  map rd_dept_id (filter (fun x => (rd_role_id x =? rid)%Z) (sys_role_dept db)).

(** [select(SysRoleDept.dept_id).where(SysRoleDept.role_id.in_(rids))] *)
Definition granted_among (db : t) (rids : list Z) : list Z :=
  map rd_dept_id
      (filter (fun x => existsb (Z.eqb (rd_role_id x)) rids) (sys_role_dept db)).

(** MySQL's [find_in_set(d, ancestors)], read as a truth value. *)
Definition find_in_set (d : Z) (ancestors : string) : bool :=
  existsb (String.eqb (Py.str_int d)) (Py.split_commas ancestors).

(** [select(SysDept.dept_id).where(or_(SysDept.dept_id == d,
                                       func.find_in_set(d, SysDept.ancestors)))] *)
Definition subtree (db : t) (d : Z) : list Z :=
  map d_dept_id
      (filter (fun x => (d_dept_id x =? d)%Z || find_in_set d (d_ancestors x))
              (sys_dept db)).

End Db.

(** The attributes of the mapped class named by [query_alias]. *)
Definition entity := list string.

Definition hasattr (e : entity) (name : string) : bool :=
  existsb (String.eqb name) e.

(** A row under query: the value of each column, [None] for a column that is
    NULL or that the row does not have. *)
Definition row := string -> option Z.

Inductive py_result (A : Type) :=
| Ok (a : A)
| AttributeError.
Arguments Ok {A} a.
Arguments AttributeError {A}.

(** What an operand evaluates to. *)
Inductive where_clause :=
| Literal (b : bool)
| Column_test (col : string) (c : condition).

(** [<query_alias>.<col><c>]: the attribute access raises on a class that
    lacks the attribute. *)
Definition attribute_test (e : entity) (col : string) (c : condition)
  : py_result where_clause :=
  if hasattr e col then Ok (Column_test col c) else AttributeError.

Definition py_eval (e : entity) (op : operand) : py_result where_clause :=
  match op with
  | Always => Ok (Literal true)
  | Never => Ok (Literal false)
  | Guarded col c => if hasattr e col then attribute_test e col c else Ok (Literal false)
  end.

Definition condition_holds (db : Db.t) (c : condition) (v : Z) : bool :=
  match c with
  | Equals w => (v =? w)%Z
  | In_role_depts_of rid => existsb (Z.eqb v) (Db.granted db rid)
  | In_role_depts_among rids => existsb (Z.eqb v) (Db.granted_among db rids)
  | In_dept_subtree d => existsb (Z.eqb v) (Db.subtree db d)
  end.

Definition where_holds (db : Db.t) (w : where_clause) (r : row) : bool :=
  match w with
  | Literal b => b
  | Column_test col c =>
      match r col with
      | Some v => condition_holds db c v
      | None => false
      end
  end.

(** Whether one operand, evaluated against entity [e], lets row [r] through. *)
Definition operand_admits (e : entity) (db : Db.t) (op : operand) (r : row)
  : py_result bool :=
  match py_eval e op with
  | Ok w => Ok (where_holds db w r)
  | AttributeError => AttributeError
  end.

(** [or_(...)] over the operands of the returned string.  Each operand string
    means whatever evaluating it yields ([reading]); [or_] of at least one
    operand lets a row through when some operand does.  What [or_()] with no
    operand at all means is up to the query engine ([or_of_nothing]). *)
Section Or.
Variable or_of_nothing : bool.
Variable reading : string -> row -> bool.

Definition or_admits (operands : list string) (r : row) : bool :=
  match operands with
  | [] => or_of_nothing
  | _ :: _ => existsb (fun s => reading s r) operands
  end.

(** The filter the DAO applies for [current_user]. *)
Definition admits (self : GetDataScope) (current_user : CurrentUserModel)
           (r : row) : bool :=
  or_admits (param_sql_list self current_user) r.
End Or.

(** The reading of an operand string through the templates in [known]: the
    first template instance that is written this way decides. *)
Definition reading_of (self : GetDataScope) (e : entity) (db : Db.t)
           (known : list operand) (s : string) (r : row) : bool :=
  match find (fun op => render self op =? s) known with
  | Some op =>
      match operand_admits e db op r with
      | Ok b => b
      | AttributeError => false
      end
  | None => false
  end.

(** ** Vocabulary of the properties *)

(** The string a role contributes when the loop does not short-circuit. *)
Definition role_sql (self : GetDataScope) (current_user : CurrentUserModel)
           (r : RoleModel) : string :=
  render self (role_operand self current_user r).

(** The loop takes its first branch at some role: the user is flagged
    administrator and the loop body runs at all, or some held role has
    [data_scope == DATA_SCOPE_ALL]. *)
Definition short_circuits (current_user : CurrentUserModel) : bool :=
  let roles := role (user current_user) in
  (admin (user current_user) && negb (Nat.eqb (List.length roles) 0))
  || existsb (fun r => data_scope r =? DATA_SCOPE_ALL) roles.

(** [data_scope] is one of the five class constants. *)
Definition recognized (scope : string) : bool :=
  (scope =? DATA_SCOPE_ALL) || (scope =? DATA_SCOPE_CUSTOM)
  || (scope =? DATA_SCOPE_DEPT) || (scope =? DATA_SCOPE_DEPT_AND_CHILD)
  || (scope =? DATA_SCOPE_SELF).

(** The fixed templates, instantiated for [self] and [current_user]:
    universal-true, unconditional-false, the two CUSTOM tests, the DEPT
    equality, the DEPT_AND_CHILD test and the SELF equality. *)
Inductive is_template (self : GetDataScope) (current_user : CurrentUserModel)
  : operand -> Prop :=
| T_always : is_template self current_user Always
| T_never : is_template self current_user Never
| T_custom_one rid :
    is_template self current_user
      (Guarded (dept_alias self) (In_role_depts_of rid))
| T_custom_many :
    is_template self current_user
      (Guarded (dept_alias self)
               (In_role_depts_among (custom_data_scope_role_id_list current_user)))
| T_dept :
    is_template self current_user
      (Guarded (dept_alias self) (Equals (dept_id (user current_user))))
| T_dept_and_child :
    is_template self current_user
      (Guarded (dept_alias self) (In_dept_subtree (dept_id (user current_user))))
| T_self :
    is_template self current_user
      (Guarded (user_alias self) (Equals (user_id (user current_user)))).

(** The column a scope's sub-predicate needs on the entity. *)
Definition required_field (self : GetDataScope) (scope : string) : string :=
  if scope =? DATA_SCOPE_SELF then user_alias self else dept_alias self.

(** ** Sample data

    The call sites build [GetDataScope('SysUser')] and
    [GetDataScope('SysDept')]; the mapped classes below are those of
    [entity/do/user_do.py]. *)

Definition for_SysUser : GetDataScope := init "SysUser".

(** The columns of [SysUser]. *)
Definition SysUser : entity :=
  ["user_id"; "dept_id"; "user_name"; "nick_name"; "user_type"; "email";
   "phonenumber"; "sex"; "avatar"; "password"; "status"; "del_flag";
   "login_ip"; "login_date"; "create_by"; "create_time"; "update_by";
   "update_time"; "remark"].

(** The columns of [SysUserPost]: an owner column, no department column. *)
Definition SysUserPost : entity := ["user_id"; "post_id"].

(** A row given by its non-NULL columns. *)
Fixpoint row_of (cols : list (string * Z)) : row :=
  fun name =>
    match cols with
    | [] => None
    | (k, v) :: rest => if name =? k then Some v else row_of rest name
    end.

Definition sample_db : Db.t :=
  Db.mk [Db.mkRoleDept 11 3; Db.mkRoleDept 13 7; Db.mkRoleDept 30 3; Db.mkRoleDept 30 7]
        [Db.mkDept 1 "0"; Db.mkDept 5 "0,1"; Db.mkDept 12 "0,1,5";
         Db.mkDept 99 "0,1"; Db.mkDept 55 "0,1,99"].

(** User 1 flagged administrator, holding no role. *)
Definition admin_without_roles : CurrentUserModel :=
  mkCurrent (mkUser 1 100 true []).

(** A plain user holding no role. *)
Definition user_without_roles : CurrentUserModel :=
  mkCurrent (mkUser 9 5 false []).

(** A plain user whose second role has scope ALL. *)
Definition user_with_all : CurrentUserModel :=
  mkCurrent (mkUser 9 5 false [mkRole 12 "3"; mkRole 3 "1"; mkRole 14 "5"]).

(** A plain user with a DEPT role and a SELF role. *)
Definition user_dept_self : CurrentUserModel :=
  mkCurrent (mkUser 9 5 false [mkRole 21 "3"; mkRole 22 "5"]).

(** A plain user with two CUSTOM roles, granted {3} and {7} in [sample_db]. *)
Definition user_two_custom : CurrentUserModel :=
  mkCurrent (mkUser 9 5 false [mkRole 11 "2"; mkRole 13 "2"]).

(** A plain user with two DEPT roles. *)
Definition user_two_dept : CurrentUserModel :=
  mkCurrent (mkUser 9 5 false [mkRole 21 "3"; mkRole 23 "3"]).

(** A plain user of department 5 with a DEPT_AND_CHILD role. *)
Definition user_dept_and_child : CurrentUserModel :=
  mkCurrent (mkUser 9 5 false [mkRole 40 "4"]).

(** A plain user whose role carries a scope value outside the five. *)
Definition user_unknown_scope : CurrentUserModel :=
  mkCurrent (mkUser 9 5 false [mkRole 50 "6"]).

(** The reading of the operand strings of [cu]'s filter on [SysUser] over
    [sample_db]. *)
Definition sample_reading (cu : CurrentUserModel) : string -> row -> bool :=
  reading_of for_SysUser SysUser sample_db
             (map (role_operand for_SysUser cu) (role (user cu))).

Definition row_user_2_dept_5 : row := row_of [("user_id", 2%Z); ("dept_id", 5%Z)].
Definition row_user_9_dept_8 : row := row_of [("user_id", 9%Z); ("dept_id", 8%Z)].
Definition row_user_2_dept_8 : row := row_of [("user_id", 2%Z); ("dept_id", 8%Z)].
Definition row_dept_3 : row := row_of [("user_id", 2%Z); ("dept_id", 3%Z)].
Definition row_dept_7 : row := row_of [("user_id", 2%Z); ("dept_id", 7%Z)].
Definition row_dept_12 : row := row_of [("user_id", 2%Z); ("dept_id", 12%Z)].
Definition row_dept_99 : row := row_of [("user_id", 2%Z); ("dept_id", 99%Z)].

(** ** The filter as the operands it is made of

    The strings the loop collects, as template instances, and the rows the
    filter lets through when every operand is read as what evaluating it
    yields. *)

Definition operands (self : GetDataScope) (current_user : CurrentUserModel)
  : list operand :=
  if short_circuits current_user then [Always]
  else map (role_operand self current_user) (role (user current_user)).

(** An operand lets the row through: it evaluates without raising, to a
    condition the row meets. *)
Definition lets_through (e : entity) (db : Db.t) (op : operand) (r : row) : bool :=
  match operand_admits e db op r with
  | Ok b => b
  | AttributeError => false
  end.

Definition filter_admits (or_of_nothing : bool) (e : entity) (db : Db.t)
           (self : GetDataScope) (current_user : CurrentUserModel) (r : row) : bool :=
  match operands self current_user with
  | [] => or_of_nothing
  | _ :: _ => existsb (fun op => lets_through e db op r) (operands self current_user)
  end.

(** The same user holding other roles. *)
Definition with_roles (current_user : CurrentUserModel) (roles : list RoleModel)
  : CurrentUserModel :=
  mkCurrent (mkUser (user_id (user current_user)) (dept_id (user current_user))
                    (admin (user current_user)) roles).

(** ** [module_admin/aspect/interface_auth.py] *)

Module InterfaceAuth.

(** [perm: Union[str, List]] and [role_key: Union[str, List]]. *)
Inductive str_or_list :=
| Str (s : string)
| Lst (l : list string).

(** The instance attributes set by [CheckUserInterfaceAuth.__init__]. *)
Record CheckUserInterfaceAuth := mkUserAuth {
  perm : str_or_list;
  is_strict : bool
}.

(** The instance attributes set by [CheckRoleInterfaceAuth.__init__]. *)
Record CheckRoleInterfaceAuth := mkRoleAuth {
  role_key : str_or_list;
  role_is_strict : bool
}.

(** What the two checks read of the current user ([user_vo.py] is missing):
    [current_user.permissions] and the [role_key] of each entry of
    [current_user.user.role]. *)
Record RoleKeyed := mkRoleKeyed {
  held_role_key : string
}.

Record CurrentUser := mkCurrentUser {
  permissions : list string;
  user_role : list RoleKeyed
}.

(** A check either returns [True] or raises [PermissionException]. *)
Inductive outcome :=
| ReturnsTrue
| PermissionException (data : string) (message : string).

Definition denied : outcome :=
  PermissionException "" "该用户无此接口权限".

(** [x in l] for a list of strings. *)
Definition py_in (x : string) (l : list string) : bool :=
  existsb (String.eqb x) l.

(** [CheckUserInterfaceAuth.__call__] *)
Definition check_user (self : CheckUserInterfaceAuth) (current_user : CurrentUser)
  : outcome :=
  let user_auth_list := permissions current_user in
  if py_in "*:*:*" user_auth_list then ReturnsTrue
  else
    match perm self with
    | Str p => if py_in p user_auth_list then ReturnsTrue else denied
    | Lst l =>
        if is_strict self then
          if forallb (fun perm_str => py_in perm_str user_auth_list) l
          then ReturnsTrue else denied
        else
          if existsb (fun perm_str => py_in perm_str user_auth_list) l
          then ReturnsTrue else denied
    end.

(** [CheckRoleInterfaceAuth.__call__] *)
Definition check_role (self : CheckRoleInterfaceAuth) (current_user : CurrentUser)
  : outcome :=
  let user_role_list := user_role current_user in
  let user_role_key_list := map held_role_key user_role_list in
  match role_key self with
  | Str k => if py_in k user_role_key_list then ReturnsTrue else denied
  | Lst l =>
      if role_is_strict self then
        if forallb (fun role_key_str => py_in role_key_str user_role_key_list) l
        then ReturnsTrue else denied
      else
        if existsb (fun role_key_str => py_in role_key_str user_role_key_list) l
        then ReturnsTrue else denied
  end.

End InterfaceAuth.

(** ** [module_admin/service/dept_service.py] *)

Module DeptService.

(** [s[n:]] *)
Fixpoint drop (n : nat) (s : string) : string :=
  match n, s with
  | O, _ => s
  | S _, EmptyString => EmptyString
  | S k, String _ t => drop k t
  end.

(** [s.startswith(p)] *)
Definition startswith (s p : string) : bool := String.prefix p s.

(** [s.replace(old, new, 1)]: the leftmost occurrence of [old] is replaced;
    an empty [old] occurs at the very start. *)
Fixpoint replace_1 (s old new : string) : string :=
  if String.prefix old s then new ++ drop (String.length old) s
  else
    match s with
    | EmptyString => EmptyString
    | String c t => String c (replace_1 t old new)
    end.

(** [DeptService.replace_first] *)
Definition replace_first (original_str old_str new_str : string) : string :=
  if startswith original_str old_str
  then replace_1 original_str old_str new_str
  else original_str.

(** A child row as [update_dept_children] reads it, and the update it
    builds for it ([{'dept_id': ..., 'ancestors': ...}]). *)
Record child := mkChild {
  child_dept_id : Z;
  child_ancestors : string
}.

(** [DeptService.update_dept_children], given the rows
    [DeptDao.get_children_dept_dao] returned: the list handed to
    [DeptDao.update_dept_children_dao], or [None] when there are no children
    and the DAO is not called. *)
Definition update_dept_children (children : list child)
           (new_ancestors old_ancestors : string) : option (list child) :=
  let update_children :=
    map (fun c => mkChild (child_dept_id c)
                          (replace_first (child_ancestors c) old_ancestors new_ancestors))
        children in
  match children with
  | [] => None
  | _ :: _ => Some update_children
  end.

(** [f'{x}'] for an [Optional[int]]. *)
Definition str_opt_int (x : option Z) : string :=
  match x with
  | Some z => Py.str_int z
  | None => "None"
  end.

(** The attributes of the [DeptModel] page object that [add_dept_services]
    reads or sets. *)
Record DeptModel := mkDeptModel {
  dept_name : string;
  parent_id : option Z;
  ancestors : option string
}.

(** The attributes of the [SysDept] row [DeptDao.get_dept_by_id] returns that
    [add_dept_services] reads. *)
Record parent_row := mkParent {
  parent_status : string;
  parent_dept_name : string;
  parent_ancestors : string
}.

Inductive exception :=
| ServiceException (message : string)
| AttributeError
| DaoException (e : string).

(** How [add_dept_services] ends: an exception raised before anything is
    written, an exception of the write re-raised after [rollback()], or the
    page object handed to [DeptDao.add_dept_dao] and committed. *)
Inductive add_outcome :=
| Raises (e : exception)
| RolledBack (e : exception)
| Committed (stored : DeptModel).

Section AddDept.

(** [CommonConstant.DEPT_NORMAL] ([config/constant.py] is missing). *)
Variable DEPT_NORMAL : string.

(** [DeptService.add_dept_services], given what its awaits yield:
    [is_unique], the truth value of [check_dept_name_unique_services];
    [parent_info], the row of [DeptDao.get_dept_by_id] or [None];
    [write_error], the exception of [add_dept_dao] or [commit], if any. *)
Definition add_dept_services (is_unique : bool) (parent_info : option parent_row)
           (write_error : option string) (page_object : DeptModel) : add_outcome :=
  if negb is_unique then
    Raises (ServiceException
              ("新增部门" ++ dept_name page_object ++ "失败，部门名称已存在"))
  else
    match parent_info with
    | None => Raises AttributeError
    | Some parent =>
        if negb (parent_status parent =? DEPT_NORMAL) then
          Raises (ServiceException
                    ("部门" ++ parent_dept_name parent ++ "停用，不允许新增"))
        else
          let page_object' :=
            mkDeptModel (dept_name page_object) (parent_id page_object)
                        (Some (parent_ancestors parent ++ ","
                               ++ str_opt_int (parent_id page_object))) in
          match write_error with
          | Some e => RolledBack (DaoException e)
          | None => Committed page_object'
          end
    end.

End AddDept.

(** *** [DeptService.list_to_tree]

    The dicts built from the rows are shared between [permission_list],
    [mapping] and the [children] lists, so they are kept in a store: a dict
    is named by its position in [permission_list], and the store holds the
    [children] list of every dict and the [container]. *)

(** A row as [list_to_tree] reads it: [dept_id], [dept_name], [parent_id]. *)
Record item := mkItem {
  id : Z;
  label : string;
  parentId : option Z
}.

Record store := mkStore {
  container : list nat;
  children : list (list nat)
}.

(** [dict(zip(ids, dicts))] followed by [mapping.get(key)]: of several dicts
    with the same id the last one is kept. *)
Fixpoint last_with_id (key : Z) (items : list item) (pos : nat) (found : option nat)
  : option nat :=
  match items with
  | [] => found
  | it :: rest =>
      last_with_id key rest (S pos) (if (id it =? key)%Z then Some pos else found)
  end.

Definition mapping_get (items : list item) (key : option Z) : option nat :=
  match key with
  | None => None
  | Some k => last_with_id k items 0 None
  end.

(** [l[j] = v] *)
Fixpoint set_nth {A : Type} (j : nat) (v : A) (l : list A) : list A :=
  match l, j with
  | [], _ => []
  | _ :: t, O => v :: t
  | x :: t, S k => x :: set_nth k v t
  end.

(** One pass through the body of [for d in permission_list], for the dict at
    position [pos]. *)
Definition place (items : list item) (st : store) (pos : nat) (d : item) : store :=
  match mapping_get items (parentId d) with
  | None => mkStore (container st ++ [pos])%list (children st)
  | Some parent =>
      mkStore (container st)
              (set_nth parent (nth parent (children st) [] ++ [pos])%list (children st))
  end.

Fixpoint place_all (items : list item) (todo : list item) (pos : nat) (st : store)
  : store :=
  match todo with
  | [] => st
  | d :: rest => place_all items rest (S pos) (place items st pos d)
  end.

Definition list_to_tree (permission_list : list item) : store :=
  place_all permission_list permission_list 0
            (mkStore [] (repeat [] (List.length permission_list))).

(** The returned nested value, unfolded from the store down to a depth. *)
#[warnings="-register-all"]
Inductive tree :=
| Node (d : item) (kids : list tree).

Fixpoint unfold (items : list item) (st : store) (depth : nat) (pos : nat) : list tree :=
  match depth with
  | O => []
  | S k =>
      match nth_error items pos with
      | None => []
      | Some d =>
          [Node d (flat_map (unfold items st k) (nth pos (children st) []))]
      end
  end.

Definition nested (permission_list : list item) : list tree :=
  let st := list_to_tree permission_list in
  flat_map (unfold permission_list st (List.length permission_list)) (container st).

(** The store after the first [pos] dicts were placed: every one of them
    sits in exactly one place, the container or one [children] list. *)
Definition placed_upto (items : list item) (pos : nat) (st : store) : Prop :=
  List.length (children st) = List.length items
  /\ Permutation (container st ++ concat (children st)) (seq 0 pos).

End DeptService.

(** Sample data for the checks and the department service. *)

Definition perms_list_query : list string := ["system:user:list"; "system:user:query"].

Definition plain_current_user : InterfaceAuth.CurrentUser :=
  InterfaceAuth.mkCurrentUser ["system:user:list"]
                              [InterfaceAuth.mkRoleKeyed "common"].

Definition richer_current_user : InterfaceAuth.CurrentUser :=
  InterfaceAuth.mkCurrentUser ["system:dept:list"; "system:user:query"; "system:user:list"]
                              [InterfaceAuth.mkRoleKeyed "common"; InterfaceAuth.mkRoleKeyed "hr"].

Definition sample_items : list DeptService.item :=
  [DeptService.mkItem 100 "root" (Some 0%Z);
   DeptService.mkItem 101 "east" (Some 100%Z);
   DeptService.mkItem 103 "dev" (Some 101%Z);
   DeptService.mkItem 102 "west" (Some 100%Z);
   DeptService.mkItem 200 "loop" (Some 200%Z)].

(** ** Evaluating the returned text

    The DAOs hand the returned string to [eval] and the value to
    [where(...)].  The string spells a call: a name, an opening parenthesis,
    the arguments separated by commas outside any bracket and any quoted
    literal, and the closing parenthesis. *)

Module PyEval.

Definition is_open (c : ascii) : bool :=
  Ascii.eqb c "("%char || Ascii.eqb c "["%char.

Definition is_close (c : ascii) : bool :=
  Ascii.eqb c ")"%char || Ascii.eqb c "]"%char.

(** The argument texts of an argument list, read from bracket depth [depth],
    inside a quoted literal or not, [cur] being the text of the argument
    read so far. *)
Fixpoint arguments_from (depth : nat) (quoted : bool) (cur : string) (s : string)
  : list string :=
  match s with
  | EmptyString => [cur]
  | String c rest =>
      let cur' := cur ++ String c EmptyString in
      if quoted then arguments_from depth (negb (Ascii.eqb c "'"%char)) cur' rest
      else if Ascii.eqb c "'"%char then arguments_from depth true cur' rest
      else if is_open c then arguments_from (S depth) false cur' rest
      else if is_close c then arguments_from (Nat.pred depth) false cur' rest
      else if Ascii.eqb c ","%char && Nat.eqb depth 0
           then cur :: arguments_from 0 false EmptyString rest
      else arguments_from depth false cur' rest
  end.

(** Leading blanks do not belong to an argument. *)
Fixpoint lstrip (s : string) : string :=
  match s with
  | String c rest => if Ascii.eqb c " "%char then lstrip rest else s
  | EmptyString => EmptyString
  end.

Definition arguments (body : string) : list string :=
  match body with
  | EmptyString => []
  | String _ _ => map lstrip (arguments_from 0 false EmptyString body)
  end.

(** The name before the first opening parenthesis, and what follows it. *)
Fixpoint split_at_paren (name : string) (s : string) : option (string * string) :=
  match s with
  | EmptyString => None
  | String c rest =>
      if Ascii.eqb c "("%char then Some (name, rest)
      else split_at_paren (name ++ String c EmptyString) rest
  end.

(** The text without its last character, which must close the call. *)
Fixpoint drop_last_paren (s : string) : option string :=
  match s with
  | EmptyString => None
  | String c EmptyString => if Ascii.eqb c ")"%char then Some EmptyString else None
  | String c rest =>
      match drop_last_paren rest with
      | Some body => Some (String c body)
      | None => None
      end
  end.

(** The called name and the argument texts of [name(arg, ..., arg)]. *)
Definition parse_call (s : string) : option (string * list string) :=
  match split_at_paren EmptyString s with
  | None => None
  | Some (name, rest) =>
      match drop_last_paren rest with
      | None => None
      | Some body => Some (name, arguments body)
      end
  end.

(** What [eval] and [where] make of the text: the rows let through, or an
    error.  The DAOs import [or_] and, some of them, [and_]; no other
    name of a conjunction is bound.  Each argument means what [reading]
    says; a conjunction of no argument at all means [of_nothing]. *)
Inductive evaluated :=
| Rows (admitted : bool)
| SyntaxError
| NameError.

Definition eval_where (of_nothing : bool) (reading : string -> row -> bool)
           (s : string) (r : row) : evaluated :=
  match parse_call s with
  | None => SyntaxError
  | Some (name, args) =>
      if name =? "or_" then Rows (or_admits of_nothing reading args r)
      else if name =? "and_" then
        Rows (match args with
              | [] => of_nothing
              | _ :: _ => forallb (fun a => reading a r) args
              end)
      else NameError
  end.

(** The state a scan of [s] ends in, when no comma of [s] separates
    arguments. *)
Fixpoint scan (depth : nat) (quoted : bool) (s : string) : option (nat * bool) :=
  match s with
  | EmptyString => Some (depth, quoted)
  | String c rest =>
      if quoted then scan depth (negb (Ascii.eqb c "'"%char)) rest
      else if Ascii.eqb c "'"%char then scan depth true rest
      else if is_open c then scan (S depth) false rest
      else if is_close c then scan (Nat.pred depth) false rest
      else if Ascii.eqb c ","%char && Nat.eqb depth 0 then None
      else scan depth false rest
  end.

(** A character that neither brackets, quotes nor separates. *)
Definition inert_char (c : ascii) : bool :=
  negb (Ascii.eqb c "'"%char || is_open c || is_close c
        || Ascii.eqb c ","%char || Ascii.eqb c " "%char).

Fixpoint all_chars (f : ascii -> bool) (s : string) : bool :=
  match s with
  | EmptyString => true
  | String c rest => f c && all_chars f rest
  end.

(** A letter, a digit or an underscore. *)
Definition is_identifier_char (c : ascii) : bool :=
  let n := nat_of_ascii c in
  (Nat.leb 48 n && Nat.leb n 57)
  || (Nat.leb 65 n && Nat.leb n 90)
  || (Nat.leb 97 n && Nat.leb n 122)
  || Nat.eqb n 95.

Definition identifier (s : string) : bool := all_chars is_identifier_char s.

(** An operand text that is one whole argument: brackets and quotes closed,
    no separating comma, no leading blank. *)
Definition one_argument (s : string) : Prop :=
  scan 0 false s = Some (0, false)
  /\ exists c rest, s = String c rest /\ Ascii.eqb c " "%char = false.

End PyEval.

(** The aliases of the instance are names, as at every call site
    ([GetDataScope('SysUser')], [GetDataScope('SysDept')]). *)
Definition aliases_are_names (self : GetDataScope) : bool :=
  PyEval.identifier (query_alias self)
  && PyEval.identifier (dept_alias self)
  && PyEval.identifier (user_alias self).

(** SQLAlchemy is not part of the repository.  Its [or_()] without operands
    is an empty clause list, and [where(...)] given an empty clause adds no
    condition to the statement, so every row is returned: [true] is that
    reading of an OR of nothing. *)
Definition where_of_empty_or : bool := true.

(** The reading under which the universal-true operand is the only one that
    is known. *)
Definition reading_always : string -> row -> bool :=
  reading_of for_SysUser SysUser sample_db [Always].

(** ** Facts about the Python primitives *)

Lemma append_assoc (a b c : string) : (a ++ b) ++ c = a ++ b ++ c.
Proof.
  induction a as [|ch a IH]; simpl; [reflexivity | now rewrite IH].
Qed.

Lemma dict_has_In d k : Py.dict_has d k = true <-> In k d.
Proof.
  unfold Py.dict_has. rewrite existsb_exists. split.
  - intros [x [Hx Heq]]. apply String.eqb_eq in Heq. now subst.
  - intros H. exists k. split; [assumption | apply String.eqb_refl].
Qed.

Lemma dict_set_In d k s : In s (Py.dict_set d k) <-> In s d \/ s = k.
Proof.
  unfold Py.dict_set. destruct (Py.dict_has d k) eqn:E.
  - apply dict_has_In in E. split; [tauto | intros [H | ->]; assumption].
  - rewrite in_app_iff. simpl. intuition congruence.
Qed.

Lemma dict_set_NoDup d k : NoDup d -> NoDup (Py.dict_set d k).
Proof.
  intros Hd. unfold Py.dict_set. destruct (Py.dict_has d k) eqn:E; [assumption|].
  assert (Hk : ~ In k d).
  { intros Hin. apply dict_has_In in Hin. congruence. }
  clear E. induction d as [|x d IH]; simpl.
  - constructor; [intros [] | constructor].
  - inversion Hd as [|? ? Hx Hd']; subst. constructor.
    + rewrite in_app_iff. simpl. intros [H | [H | []]]; [tauto|].
      subst. apply Hk. now left.
    + apply IH; [assumption | intros H; apply Hk; now right].
Qed.

Lemma dict_set_length d k :
  List.length d <= List.length (Py.dict_set d k) <= S (List.length d).
Proof.
  unfold Py.dict_set. destruct (Py.dict_has d k).
  - lia.
  - rewrite length_app. simpl. lia.
Qed.

Lemma fold_dict_set_In l : forall d s,
  In s (fold_left Py.dict_set l d) <-> In s d \/ In s l.
Proof.
  induction l as [|k l IH]; intros d s; simpl.
  - tauto.
  - rewrite IH, dict_set_In. intuition congruence.
Qed.

Lemma fold_dict_set_NoDup l : forall d,
  NoDup d -> NoDup (fold_left Py.dict_set l d).
Proof.
  induction l as [|k l IH]; intros d Hd; simpl; [assumption|].
  apply IH, dict_set_NoDup, Hd.
Qed.

Lemma fold_dict_set_length l : forall d,
  List.length d <= List.length (fold_left Py.dict_set l d)
  <= List.length d + List.length l.
Proof.
  induction l as [|k l IH]; intros d; simpl.
  - lia.
  - specialize (IH (Py.dict_set d k)). pose proof (dict_set_length d k). lia.
Qed.

Lemma fromkeys_In l s : In s (Py.fromkeys l) <-> In s l.
Proof.
  unfold Py.fromkeys. rewrite fold_dict_set_In. simpl. tauto.
Qed.

Lemma fromkeys_NoDup l : NoDup (Py.fromkeys l).
Proof.
  apply fold_dict_set_NoDup. constructor.
Qed.

Lemma fromkeys_length l : List.length (Py.fromkeys l) <= List.length l.
Proof.
  pose proof (fold_dict_set_length l []) as H. simpl in H. apply H.
Qed.

Lemma fromkeys_nonempty x l : 1 <= List.length (Py.fromkeys (x :: l)).
Proof.
  unfold Py.fromkeys. simpl.
  pose proof (fold_dict_set_length l (Py.dict_set [] x)) as H.
  unfold Py.dict_set in *. simpl in *. lia.
Qed.

Lemma fromkeys_count l s : In s l -> count_occ string_dec (Py.fromkeys l) s = 1.
Proof.
  intros H. apply NoDup_count_occ'; [apply fromkeys_NoDup | now apply fromkeys_In].
Qed.

Lemma existsb_same_members (f : string -> bool) l1 l2 :
  (forall s, In s l1 <-> In s l2) -> existsb f l1 = existsb f l2.
Proof.
  intros H. apply eq_true_iff_eq. rewrite !existsb_exists.
  split; intros [x [Hx Hf]]; exists x; split; try assumption; now apply H.
Qed.

(** A list of strings each rendered from a template is rendered from a list
    of templates of the same length. *)
Lemma rendered_list (P : operand -> Prop) (f : operand -> string) (l : list string) :
  Forall (fun s => exists op, P op /\ s = f op) l ->
  exists ops, l = map f ops /\ Forall P ops /\ List.length ops = List.length l.
Proof.
  induction 1 as [|s l [op [HP Hop]] _ [ops [Hl [HPs Hlen]]]].
  - exists []. repeat split. constructor.
  - exists (op :: ops). simpl. subst.
    split; [reflexivity|]. split; [now constructor | now rewrite Hlen].
Qed.

(** ** The loop *)

Lemma role_branch_render self cu r :
  role_branch self cu r =
  if admin (user cu) || (data_scope r =? DATA_SCOPE_ALL) then Short_circuit
  else Append (role_sql self cu r).
Proof.
  unfold role_branch, role_sql, role_operand.
  destruct (admin (user cu) || (data_scope r =? DATA_SCOPE_ALL)); [reflexivity|].
  repeat match goal with
         | |- context [if ?b then _ else _] => destruct b
         end;
    cbn [render render_condition]; rewrite ?append_assoc; reflexivity.
Qed.

Lemma role_operand_template self cu r : is_template self cu (role_operand self cu r).
Proof.
  unfold role_operand.
  repeat match goal with
         | |- context [if ?b then _ else _] => destruct b
         end; constructor.
Qed.

(** Without a short-circuit the loop appends one string per role, in order. *)
Lemma for_each_role_appends self cu roles : forall acc,
  admin (user cu) = false ->
  existsb (fun r => data_scope r =? DATA_SCOPE_ALL) roles = false ->
  for_each_role self cu roles acc = (acc ++ map (role_sql self cu) roles)%list.
Proof.
  induction roles as [|r roles IH]; intros acc Hadm Hall; simpl.
  - now rewrite app_nil_r.
  - simpl in Hall. apply orb_false_iff in Hall as [Hr Hrest].
    rewrite role_branch_render, Hadm, Hr. simpl.
    rewrite IH by assumption. now rewrite <- app_assoc.
Qed.

(** A held role with scope ALL resets whatever was accumulated. *)
Lemma for_each_role_all self cu roles : forall acc,
  existsb (fun r => data_scope r =? DATA_SCOPE_ALL) roles = true ->
  for_each_role self cu roles acc = ["1 == 1"].
Proof.
  induction roles as [|r roles IH]; intros acc Hall; simpl in *; [discriminate|].
  rewrite role_branch_render.
  destruct (admin (user cu) || (data_scope r =? DATA_SCOPE_ALL)) eqn:E; [reflexivity|].
  apply orb_false_iff in E as [_ Hr]. rewrite Hr in Hall. simpl in Hall.
  now apply IH.
Qed.

(** An administrator resets the list at the first role, when there is one. *)
Lemma for_each_role_admin self cu r roles acc :
  admin (user cu) = true ->
  for_each_role self cu (r :: roles) acc = ["1 == 1"].
Proof.
  intros Hadm. simpl. now rewrite role_branch_render, Hadm.
Qed.

Lemma collected_spec self cu :
  collected self cu =
  if short_circuits cu then ["1 == 1"]
  else map (role_sql self cu) (role (user cu)).
Proof.
  unfold collected, short_circuits.
  destruct (existsb (fun r => data_scope r =? DATA_SCOPE_ALL) (role (user cu))) eqn:Hall.
  - rewrite orb_true_r. now apply for_each_role_all.
  - rewrite orb_false_r. destruct (admin (user cu)) eqn:Hadm; simpl.
    + destruct (role (user cu)) as [|r roles]; simpl; [reflexivity|].
      now rewrite role_branch_render, Hadm.
    + now rewrite for_each_role_appends.
Qed.

Lemma fromkeys_single s : Py.fromkeys [s] = [s].
Proof. reflexivity. Qed.

Lemma no_all_role cu :
  (forall r, In r (role (user cu)) -> data_scope r <> DATA_SCOPE_ALL) ->
  existsb (fun r => data_scope r =? DATA_SCOPE_ALL) (role (user cu)) = false.
Proof.
  intros H. apply not_true_is_false. intros E.
  apply existsb_exists in E as [r [Hin Hr]]. apply String.eqb_eq in Hr.
  exact (H r Hin Hr).
Qed.

Lemma param_sql_list_plain self cu :
  admin (user cu) = false ->
  (forall r, In r (role (user cu)) -> data_scope r <> DATA_SCOPE_ALL) ->
  param_sql_list self cu = Py.fromkeys (map (role_sql self cu) (role (user cu))).
Proof.
  intros Hadm Hall. unfold param_sql_list. rewrite collected_spec.
  unfold short_circuits. now rewrite Hadm, (no_all_role cu Hall).
Qed.

Lemma call_of_list self cu l :
  param_sql_list self cu = l -> call self cu = "or_(" ++ Py.join ", " l ++ ")".
Proof. intros <-. reflexivity. Qed.

(** An administrator holding at least one role gets the universal-true
    predicate. *)
Lemma admin_with_a_role self cu :
  admin (user cu) = true -> role (user cu) <> [] ->
  param_sql_list self cu = ["1 == 1"] /\ call self cu = "or_(1 == 1)".
Proof.
  intros Hadm Hne.
  assert (H : param_sql_list self cu = ["1 == 1"]).
  { unfold param_sql_list, collected.
    destruct (role (user cu)) as [|r roles]; [congruence|].
    now rewrite for_each_role_admin. }
  split; [assumption | now rewrite (call_of_list _ _ _ H)].
Qed.

(** ** The meaning of the operands *)

Lemma existsb_Zeqb v l : existsb (Z.eqb v) l = true <-> In v l.
Proof.
  rewrite existsb_exists. split.
  - intros [x [Hx Heq]]. apply Z.eqb_eq in Heq. now subst.
  - intros H. exists v. split; [assumption | apply Z.eqb_refl].
Qed.

Lemma in_granted db rid v :
  In v (Db.granted db rid) <->
  exists x, In x (Db.sys_role_dept db) /\ Db.rd_role_id x = rid /\ Db.rd_dept_id x = v.
Proof.
  unfold Db.granted. rewrite in_map_iff. split.
  - intros [x [Hv Hx]]. apply filter_In in Hx as [Hx Hr]. apply Z.eqb_eq in Hr.
    exists x. auto.
  - intros [x [Hx [Hr Hv]]]. exists x. split; [assumption|].
    apply filter_In. split; [assumption | now apply Z.eqb_eq].
Qed.

Lemma in_granted_among db rids v :
  In v (Db.granted_among db rids) <->
  exists rid, In rid rids /\ In v (Db.granted db rid).
Proof.
  unfold Db.granted_among. rewrite in_map_iff. split.
  - intros [x [Hv Hx]]. apply filter_In in Hx as [Hx Hr].
    apply existsb_Zeqb in Hr. exists (Db.rd_role_id x). split; [assumption|].
    apply in_granted. exists x. auto.
  - intros [rid [Hrid Hv]]. apply in_granted in Hv as [x [Hx [Hr Hv]]].
    exists x. split; [assumption|]. apply filter_In. split; [assumption|].
    apply existsb_Zeqb. now rewrite Hr.
Qed.

Lemma find_in_set_spec d ancestors :
  Db.find_in_set d ancestors = true <-> In (Py.str_int d) (Py.split_commas ancestors).
Proof.
  unfold Db.find_in_set. rewrite existsb_exists. split.
  - intros [x [Hx Heq]]. apply String.eqb_eq in Heq. now subst.
  - intros H. exists (Py.str_int d). split; [assumption | apply String.eqb_refl].
Qed.

Lemma in_subtree db d v :
  In v (Db.subtree db d) <->
  exists x, In x (Db.sys_dept db) /\ Db.d_dept_id x = v
            /\ (v = d \/ In (Py.str_int d) (Py.split_commas (Db.d_ancestors x))).
Proof.
  unfold Db.subtree. rewrite in_map_iff. split.
  - intros [x [Hv Hx]]. apply filter_In in Hx as [Hx Hc].
    exists x. split; [assumption|]. split; [assumption|].
    apply orb_true_iff in Hc as [Hc | Hc].
    + left. apply Z.eqb_eq in Hc. congruence.
    + right. now apply find_in_set_spec.
  - intros [x [Hx [Hv Hc]]]. exists x. split; [assumption|].
    apply filter_In. split; [assumption|]. apply orb_true_iff.
    destruct Hc as [Hc | Hc].
    + left. apply Z.eqb_eq. congruence.
    + right. now apply find_in_set_spec.
Qed.

Lemma custom_ids_In cu rid :
  In rid (custom_data_scope_role_id_list cu) <->
  exists r, In r (role (user cu)) /\ data_scope r = DATA_SCOPE_CUSTOM /\ role_id r = rid.
Proof.
  unfold custom_data_scope_role_id_list. rewrite in_map_iff. split.
  - intros [r [Hid Hr]]. apply filter_In in Hr as [Hr Hs]. apply String.eqb_eq in Hs.
    exists r. auto.
  - intros [r [Hr [Hs Hid]]]. exists r. split; [assumption|].
    apply filter_In. split; [assumption | now apply String.eqb_eq].
Qed.

(** On an entity with the column, a guarded operand is the column test. *)
Lemma guarded_present e db col c row :
  hasattr e col = true ->
  operand_admits e db (Guarded col c) row
  = Ok (match row col with Some v => condition_holds db c v | None => false end).
Proof.
  intros H. unfold operand_admits, py_eval, attribute_test. now rewrite H.
Qed.

(** On an entity without the column, a guarded operand is [False], and the
    attribute is never touched. *)
Lemma guarded_absent e db col c row :
  hasattr e col = false ->
  py_eval e (Guarded col c) = Ok (Literal false)
  /\ operand_admits e db (Guarded col c) row = Ok false.
Proof.
  intros H. unfold operand_admits, py_eval. now rewrite H.
Qed.

Lemma guarded_admits e db col c row :
  hasattr e col = true ->
  (operand_admits e db (Guarded col c) row = Ok true
   <-> exists v, row col = Some v /\ condition_holds db c v = true).
Proof.
  intros H. rewrite (guarded_present e db col c row H). split.
  - intros E. destruct (row col) as [v|]; [|discriminate].
    exists v. split; [reflexivity | congruence].
  - intros [v [-> Hv]]. now rewrite Hv.
Qed.

Lemma role_sql_in_list self cu r :
  admin (user cu) = false ->
  (forall r', In r' (role (user cu)) -> data_scope r' <> DATA_SCOPE_ALL) ->
  In r (role (user cu)) ->
  In (role_sql self cu r) (param_sql_list self cu).
Proof.
  intros Hadm Hall Hin. rewrite (param_sql_list_plain self cu Hadm Hall).
  apply fromkeys_In, in_map, Hin.
Qed.

Lemma role_branch_plain self cu r :
  admin (user cu) = false ->
  data_scope r <> DATA_SCOPE_ALL ->
  role_branch self cu r = Append (role_sql self cu r).
Proof.
  intros Hadm Hall. rewrite role_branch_render, Hadm.
  apply String.eqb_neq in Hall. now rewrite Hall.
Qed.

(** ** Properties of the filter *)

(** For the administrator who holds no role the loop body, and with it the
    test of the administrator flag, never runs: the operand list stays empty
    and [__call__] returns [or_()], an OR without operands. *)
Example admin_without_roles_empty_or :
  admin (user admin_without_roles) = true
  /\ role (user admin_without_roles) = []
  /\ param_sql_list for_SysUser admin_without_roles = []
  /\ call for_SysUser admin_without_roles = "or_()"
  /\ call for_SysUser admin_without_roles <> "or_(1 == 1)".
Proof.
  repeat split; try reflexivity. vm_compute. discriminate.
Qed.

(** C2: a user holding at least one role with [data_scope == ALL] gets the
    universal-true predicate.  Whatever list the loop had accumulated is
    replaced by [['1 == 1']], so the result has this one operand, which lets
    every row of every entity through. *)
Theorem C2_all_scope_discards self cu r :
  In r (role (user cu)) ->
  data_scope r = DATA_SCOPE_ALL ->
  (forall acc, for_each_role self cu (role (user cu)) acc = ["1 == 1"])
  /\ param_sql_list self cu = [render self Always]
  /\ call self cu = "or_(1 == 1)"
  /\ (forall e db row, operand_admits e db Always row = Ok true)
  /\ (forall o reading row,
         reading "1 == 1" row = true -> admits o reading self cu row = true).
Proof.
  intros Hin Hall.
  assert (E : existsb (fun r => data_scope r =? DATA_SCOPE_ALL) (role (user cu)) = true).
  { apply existsb_exists. exists r. split; [assumption | now apply String.eqb_eq]. }
  assert (Hl : param_sql_list self cu = ["1 == 1"]).
  { unfold param_sql_list, collected. now rewrite for_each_role_all. }
  split; [intros acc; now apply for_each_role_all|].
  split; [exact Hl|].
  split; [now rewrite (call_of_list _ _ _ Hl)|].
  split; [reflexivity|].
  intros o reading row Hr. unfold admits. rewrite Hl. simpl. now rewrite Hr.
Qed.

(** The plain user whose second of three roles has scope ALL. *)
Lemma C2_all_scope_discards_witness :
  In (mkRole 3 "1") (role (user user_with_all))
  /\ data_scope (mkRole 3 "1") = DATA_SCOPE_ALL
  /\ call for_SysUser user_with_all = "or_(1 == 1)".
Proof.
  assert (Hin : In (mkRole 3 "1") (role (user user_with_all))).
  { simpl. right. left. reflexivity. }
  split; [exact Hin|]. split; [reflexivity|].
  apply (C2_all_scope_discards for_SysUser user_with_all (mkRole 3 "1") Hin eq_refl).
Defined.

(** C5, as the code has it: for a plain user holding no role [__call__]
    returns [or_()], produced by the same join as every other result; the
    operand list is empty and nothing in the builder replaces it by an
    always-false operand.  Whether a row is let through is then exactly what
    the query engine makes of an OR of nothing. *)
Theorem C5_no_roles_empty_or self cu :
  admin (user cu) = false ->
  role (user cu) = [] ->
  param_sql_list self cu = []
  /\ call self cu = "or_()"
  /\ (forall o reading row, admits o reading self cu row = o).
Proof.
  intros Hadm Hroles.
  assert (Hl : param_sql_list self cu = []).
  { unfold param_sql_list, collected. now rewrite Hroles. }
  split; [exact Hl|].
  split; [now rewrite (call_of_list _ _ _ Hl)|].
  intros o reading row. unfold admits. now rewrite Hl.
Qed.

(** The plain user without roles, filtering [SysUser]. *)
Lemma C5_no_roles_empty_or_witness :
  admin (user user_without_roles) = false
  /\ role (user user_without_roles) = []
  /\ call for_SysUser user_without_roles = "or_()".
Proof.
  split; [reflexivity|]. split; [reflexivity|].
  apply (C5_no_roles_empty_or for_SysUser user_without_roles eq_refl eq_refl).
Defined.

(** C5 as claimed fails: for the plain user without roles the result is not
    always-false on its own account.  No always-false operand is emitted,
    and under an engine that reads an OR of nothing as "no condition" every
    row is let through. *)
Lemma C5_counterexample :
  ~ (In "1 == 0" (param_sql_list for_SysUser user_without_roles)
     \/ forall o reading row,
          admits o reading for_SysUser user_without_roles row = false).
Proof.
  intros [H | H].
  - vm_compute in H. exact H.
  - specialize (H true (fun _ _ => false) (row_of [])). vm_compute in H. discriminate.
Qed.

(** C9: [list(dict.fromkeys(...))] keeps one copy of every collected string:
    the retained list has no duplicates and the same members as the
    collected one, so a string contributed by several roles (two DEPT roles
    of the same user, say) is retained exactly once; and the OR over the
    retained operands lets through the same rows as the OR over the
    collected ones, whatever the operands mean. *)
Theorem C9_deduplicated self cu :
  NoDup (param_sql_list self cu)
  /\ (forall s, In s (param_sql_list self cu) <-> In s (collected self cu))
  /\ (forall s, In s (collected self cu) ->
                count_occ string_dec (param_sql_list self cu) s = 1)
  /\ (forall o reading row,
         or_admits o reading (param_sql_list self cu) row
         = or_admits o reading (collected self cu) row).
Proof.
  unfold param_sql_list.
  split; [apply fromkeys_NoDup|].
  split; [intros s; apply fromkeys_In|].
  split; [intros s; apply fromkeys_count|].
  intros o reading row.
  remember (collected self cu) as l eqn:El. clear El.
  destruct l as [|x l]; [reflexivity|].
  pose proof (fromkeys_nonempty x l) as Hlen.
  destruct (Py.fromkeys (x :: l)) as [|y k] eqn:Ek; [simpl in Hlen; lia|].
  unfold or_admits. apply existsb_same_members.
  intros s. rewrite <- Ek. apply fromkeys_In.
Qed.

(** Two DEPT roles of one user collect the same string twice and retain it
    once. *)
Lemma C9_deduplicated_witness :
  collected for_SysUser user_two_dept
  = ["SysUser.dept_id == 5 if hasattr(SysUser, 'dept_id') else 1 == 0";
     "SysUser.dept_id == 5 if hasattr(SysUser, 'dept_id') else 1 == 0"]
  /\ count_occ string_dec (param_sql_list for_SysUser user_two_dept)
       "SysUser.dept_id == 5 if hasattr(SysUser, 'dept_id') else 1 == 0" = 1.
Proof.
  split; [reflexivity|].
  apply (C9_deduplicated for_SysUser user_two_dept).
  simpl. left. reflexivity.
Defined.

(** C10: the returned string is [or_(c1, ..., cn)], the operands joined by
    [', '] between [or_(] and [)], each operand an instance of one of the
    fixed templates.  There are never more operands than roles: with no role
    held there is no operand; otherwise a short-circuit leaves exactly the
    universal-true operand, and without one there are between one and as
    many operands as roles. *)
Theorem C10_shape self cu :
  exists ops : list operand,
    call self cu = "or_(" ++ Py.join ", " (map (render self) ops) ++ ")"
    /\ param_sql_list self cu = map (render self) ops
    /\ Forall (is_template self cu) ops
    /\ List.length ops <= List.length (role (user cu))
    /\ match role (user cu) with
       | [] => ops = []
       | _ :: _ =>
           if short_circuits cu then ops = [Always]
           else 1 <= List.length ops
       end.
Proof.
  destruct (short_circuits cu) eqn:Hsc.
  - exists [Always].
    assert (Hl : param_sql_list self cu = ["1 == 1"]).
    { unfold param_sql_list. rewrite collected_spec, Hsc. reflexivity. }
    split; [now rewrite (call_of_list _ _ _ Hl)|].
    split; [exact Hl|].
    split; [repeat constructor|].
    unfold short_circuits in Hsc.
    destruct (role (user cu)) as [|r roles].
    + simpl in Hsc. rewrite andb_false_r in Hsc. discriminate.
    + split; [simpl; lia | reflexivity].
  - assert (Hl : param_sql_list self cu
                 = Py.fromkeys (map (role_sql self cu) (role (user cu)))).
    { unfold param_sql_list. now rewrite collected_spec, Hsc. }
    destruct (rendered_list (is_template self cu) (render self) (param_sql_list self cu))
      as [ops [Hops [Htpl Hlen]]].
    { apply Forall_forall. intros s Hs. rewrite Hl in Hs.
      apply fromkeys_In, in_map_iff in Hs as [r [Hr _]].
      exists (role_operand self cu r).
      split; [apply role_operand_template | now rewrite <- Hr]. }
    exists ops.
    split; [now rewrite (call_of_list _ _ _ Hops)|].
    split; [exact Hops|].
    split; [exact Htpl|].
    rewrite Hlen, Hl.
    split.
    + pose proof (fromkeys_length (map (role_sql self cu) (role (user cu)))) as H.
      now rewrite length_map in H.
    + rewrite Hl in Hops. clear Hl.
      destruct (role (user cu)) as [|r roles]; simpl map in *.
      * destruct ops; [reflexivity | discriminate Hops].
      * apply fromkeys_nonempty.
Qed.

(** The sample user's filter on [SysUser], operand by operand. *)
Example shape_of_sample_result :
  call for_SysUser user_dept_self
  = "or_(SysUser.dept_id == 5 if hasattr(SysUser, 'dept_id') else 1 == 0, SysUser.user_id == 9 if hasattr(SysUser, 'user_id') else 1 == 0)"
  /\ Py.str_int 0 = "0" /\ Py.str_int (-12) = "-12"
  /\ Py.repr_int_list [11; 13]%Z = "[11, 13]".
Proof. repeat split. Qed.

(** For a plain user none of whose roles has scope ALL, the retained operands
    are the per-role strings, and their OR lets a row through exactly when
    the string of some held role does. *)
Lemma or_over_role_strings self cu o reading row :
  admin (user cu) = false ->
  (forall r, In r (role (user cu)) -> data_scope r <> DATA_SCOPE_ALL) ->
  role (user cu) <> [] ->
  param_sql_list self cu = Py.fromkeys (map (role_sql self cu) (role (user cu)))
  /\ (admits o reading self cu row = true
      <-> exists r, In r (role (user cu)) /\ reading (role_sql self cu r) row = true).
Proof.
  intros Hadm Hall Hne.
  pose proof (param_sql_list_plain self cu Hadm Hall) as Hl.
  split; [exact Hl|].
  unfold admits. rewrite Hl.
  destruct (role (user cu)) as [|r0 roles]; [congruence|].
  pose proof (fromkeys_nonempty (role_sql self cu r0) (map (role_sql self cu) roles)) as Hlen.
  change (role_sql self cu r0 :: map (role_sql self cu) roles)
    with (map (role_sql self cu) (r0 :: roles)) in *.
  destruct (Py.fromkeys (map (role_sql self cu) (r0 :: roles))) as [|y k] eqn:Ek;
    [simpl in Hlen; lia|].
  unfold or_admits. rewrite existsb_exists. split.
  - intros [s [Hs Hr]]. rewrite <- Ek in Hs.
    apply fromkeys_In, in_map_iff in Hs as [r [Hsr Hin]].
    exists r. split; [assumption | now rewrite Hsr].
  - intros [r [Hin Hr]]. exists (role_sql self cu r). split; [|assumption].
    rewrite <- Ek. apply fromkeys_In, in_map. assumption.
Qed.

(** The row that matches neither the DEPT nor the SELF condition is kept
    out. *)
Example dept_self_row_excluded :
  admits false (sample_reading user_dept_self) for_SysUser user_dept_self
         row_user_2_dept_8 = false.
Proof. reflexivity. Qed.

(** C4: for a plain user with more than one CUSTOM role and no ALL role,
    every CUSTOM role contributes the same operand, the IN test against the
    departments granted to any role of the CUSTOM role-id list, and not the
    test against its own grants; that operand is retained exactly once.  On
    an entity with the department column it lets through exactly the rows
    whose department is granted to some CUSTOM role the user holds: the
    union of the grants. *)
Theorem C4_custom_union self cu :
  admin (user cu) = false ->
  (forall r, In r (role (user cu)) -> data_scope r <> DATA_SCOPE_ALL) ->
  1 < List.length (filter (fun r => data_scope r =? DATA_SCOPE_CUSTOM) (role (user cu))) ->
  let op := Guarded (dept_alias self)
                    (In_role_depts_among (custom_data_scope_role_id_list cu)) in
  (forall r, In r (role (user cu)) -> data_scope r = DATA_SCOPE_CUSTOM ->
             role_operand self cu r = op
             /\ role_branch self cu r = Append (render self op))
  /\ count_occ string_dec (param_sql_list self cu) (render self op) = 1
  /\ (forall e db row,
         hasattr e (dept_alias self) = true ->
         (operand_admits e db op row = Ok true
          <-> exists v r, row (dept_alias self) = Some v
                          /\ In r (role (user cu))
                          /\ data_scope r = DATA_SCOPE_CUSTOM
                          /\ In v (Db.granted db (role_id r)))).
Proof.
  intros Hadm Hall Hmany op.
  assert (Hlen : (1 <? List.length (custom_data_scope_role_id_list cu))%nat = true).
  { unfold custom_data_scope_role_id_list. rewrite length_map.
    now apply Nat.ltb_lt. }
  assert (Hop : forall r, data_scope r = DATA_SCOPE_CUSTOM -> role_operand self cu r = op).
  { intros r Hr. unfold role_operand. rewrite Hr, Hlen. reflexivity. }
  split; [|split].
  - intros r Hin Hr. split; [now apply Hop|].
    rewrite role_branch_plain by auto. unfold role_sql. now rewrite Hop.
  - destruct (filter (fun r => data_scope r =? DATA_SCOPE_CUSTOM) (role (user cu)))
      as [|r0 rest] eqn:Ef; [simpl in Hmany; lia|].
    assert (Hr0 : In r0 (role (user cu)) /\ (data_scope r0 =? DATA_SCOPE_CUSTOM) = true).
    { apply (proj1 (filter_In (fun r => data_scope r =? DATA_SCOPE_CUSTOM)
                              r0 (role (user cu)))).
      rewrite Ef. now left. }
    destruct Hr0 as [Hin Hr0]. apply String.eqb_eq in Hr0.
    rewrite (param_sql_list_plain self cu Hadm Hall).
    apply fromkeys_count. apply in_map_iff. exists r0.
    split; [|assumption]. unfold role_sql. now rewrite (Hop r0 Hr0).
  - intros e db row He. unfold op. rewrite (guarded_admits e db _ _ row He). simpl.
    split.
    + intros [v [Hv Hc]]. apply existsb_Zeqb, in_granted_among in Hc as [rid [Hrid Hg]].
      apply custom_ids_In in Hrid as [r [Hin [Hs Hid]]].
      exists v, r. subst rid. auto.
    + intros [v [r [Hv [Hin [Hs Hg]]]]]. exists v. split; [assumption|].
      apply existsb_Zeqb, in_granted_among. exists (role_id r). split; [|assumption].
      apply custom_ids_In. exists r. auto.
Qed.

(** Roles 11 and 13, granted {3} and {7}: one operand, departments 3 and 7
    both pass. *)
Lemma C4_custom_union_witness :
  1 < List.length (filter (fun r => data_scope r =? DATA_SCOPE_CUSTOM)
                          (role (user user_two_custom)))
  /\ param_sql_list for_SysUser user_two_custom
     = ["SysUser.dept_id.in_(select(SysRoleDept.dept_id).where(SysRoleDept.role_id.in_([11, 13]))) if hasattr(SysUser, 'dept_id') else 1 == 0"]
  /\ operand_admits SysUser sample_db
       (Guarded "dept_id" (In_role_depts_among [11; 13]%Z)) row_dept_3 = Ok true
  /\ operand_admits SysUser sample_db
       (Guarded "dept_id" (In_role_depts_among [11; 13]%Z)) row_dept_7 = Ok true.
Proof.
  assert (Hall : forall r, In r (role (user user_two_custom)) ->
                           data_scope r <> DATA_SCOPE_ALL).
  { simpl. intros r [<- | [<- | []]]; discriminate. }
  assert (Hmany : 1 < List.length (filter (fun r => data_scope r =? DATA_SCOPE_CUSTOM)
                                          (role (user user_two_custom)))).
  { simpl. lia. }
  destruct (C4_custom_union for_SysUser user_two_custom eq_refl Hall Hmany)
    as [_ [_ Hsem]].
  split; [exact Hmany|]. split; [reflexivity|]. split.
  - apply (Hsem SysUser sample_db row_dept_3 eq_refl).
    exists 3%Z, (mkRole 11 "2"). simpl. auto.
  - apply (Hsem SysUser sample_db row_dept_7 eq_refl).
    exists 7%Z, (mkRole 13 "2"). simpl. auto 6.
Defined.

(** A department granted to neither CUSTOM role is kept out. *)
Example custom_union_row_excluded :
  operand_admits SysUser sample_db
    (Guarded "dept_id" (In_role_depts_among [11; 13]%Z)) row_dept_12 = Ok false.
Proof. reflexivity. Qed.

(** C6: a role whose [data_scope] is none of the five constants reaches the
    final [else]: whenever the loop body appends a string for it, the string
    is ['1 == 0'], and for a plain user it does append.  That operand
    evaluates, without raising, to a condition no row meets, and it is among
    the operands of a plain user who holds the role and no ALL role. *)
Theorem C6_unrecognized_fails_closed self cu r :
  recognized (data_scope r) = false ->
  (forall sql, role_branch self cu r = Append sql -> sql = "1 == 0")
  /\ (admin (user cu) = false -> role_branch self cu r = Append (render self Never))
  /\ role_operand self cu r = Never
  /\ (forall e db row, operand_admits e db Never row = Ok false)
  /\ (admin (user cu) = false ->
      (forall r', In r' (role (user cu)) -> data_scope r' <> DATA_SCOPE_ALL) ->
      In r (role (user cu)) ->
      In "1 == 0" (param_sql_list self cu)).
Proof.
  intros Hrec. unfold recognized in Hrec.
  repeat (apply orb_false_iff in Hrec as [Hrec ?]).
  assert (Hop : role_operand self cu r = Never).
  { unfold role_operand.
    repeat match goal with H : (_ =? _) = false |- _ => rewrite H; clear H end.
    reflexivity. }
  assert (Hbr : role_branch self cu r
                = if admin (user cu) then Short_circuit else Append "1 == 0").
  { rewrite role_branch_render. unfold role_sql. rewrite Hop, Hrec.
    now destruct (admin (user cu)). }
  split; [|split; [|split; [|split]]].
  - intros sql. rewrite Hbr. destruct (admin (user cu)); [discriminate|].
    intros E. now inversion E.
  - intros Hadm. now rewrite Hbr, Hadm.
  - exact Hop.
  - reflexivity.
  - intros Hadm Hall Hin.
    pose proof (role_sql_in_list self cu r Hadm Hall Hin) as Hmem.
    unfold role_sql in Hmem. now rewrite Hop in Hmem.
Qed.

(** A role with [data_scope] ['6']. *)
Lemma C6_unrecognized_fails_closed_witness :
  recognized "6" = false
  /\ role_branch for_SysUser user_unknown_scope (mkRole 50 "6") = Append "1 == 0"
  /\ call for_SysUser user_unknown_scope = "or_(1 == 0)".
Proof.
  split; [reflexivity|]. split; [|reflexivity].
  apply (C6_unrecognized_fails_closed for_SysUser user_unknown_scope (mkRole 50 "6") eq_refl).
  reflexivity.
Defined.

(** C7: the sub-predicate of a CUSTOM, DEPT, DEPT_AND_CHILD or SELF role is
    guarded by [hasattr] on the field it needs (the department column, or
    the owner column for SELF).  Evaluated against an entity that lacks the
    field it yields [False], which lets no row through, although touching
    the attribute itself would raise. *)
Theorem C7_missing_field_is_false self cu r e :
  admin (user cu) = false ->
  In (data_scope r) [DATA_SCOPE_CUSTOM; DATA_SCOPE_DEPT;
                     DATA_SCOPE_DEPT_AND_CHILD; DATA_SCOPE_SELF] ->
  hasattr e (required_field self (data_scope r)) = false ->
  exists c,
    let op := Guarded (required_field self (data_scope r)) c in
    role_branch self cu r = Append (render self op)
    /\ py_eval e op = Ok (Literal false)
    /\ (forall db row, operand_admits e db op row = Ok false)
    /\ attribute_test e (required_field self (data_scope r)) c = AttributeError.
Proof.
  intros Hadm Hscope He.
  assert (Hall : data_scope r <> DATA_SCOPE_ALL).
  { simpl in Hscope. intros E. rewrite E in Hscope.
    destruct Hscope as [H | [H | [H | [H | []]]]]; discriminate. }
  assert (Hop : exists c, role_operand self cu r
                          = Guarded (required_field self (data_scope r)) c).
  { unfold role_operand, required_field. simpl in Hscope.
    destruct Hscope as [H | [H | [H | [H | []]]]]; rewrite <- H; simpl;
      try (destruct (1 <? _)%nat); eexists; reflexivity. }
  destruct Hop as [c Hop]. exists c. cbv zeta.
  split; [|split; [|split]].
  - rewrite (role_branch_plain self cu r Hadm Hall). unfold role_sql. now rewrite Hop.
  - apply (guarded_absent e (Db.mk [] []) _ c (fun _ => None) He).
  - intros db row. apply (guarded_absent e db _ c row He).
  - unfold attribute_test. now rewrite He.
Qed.

(** The DEPT operand evaluated against [SysUserPost], which has no
    [dept_id]. *)
Lemma C7_missing_field_is_false_witness :
  hasattr SysUserPost (required_field for_SysUser "3") = false
  /\ exists c,
       role_branch for_SysUser user_two_dept (mkRole 21 "3")
       = Append (render for_SysUser (Guarded "dept_id" c))
       /\ py_eval SysUserPost (Guarded "dept_id" c) = Ok (Literal false).
Proof.
  split; [reflexivity|].
  destruct (C7_missing_field_is_false for_SysUser user_two_dept (mkRole 21 "3")
              SysUserPost eq_refl) as [c [Hb [Hp _]]].
  - simpl. right. left. reflexivity.
  - reflexivity.
  - exists c. split; [exact Hb | exact Hp].
Defined.

(** C8: a DEPT_AND_CHILD role of a plain user contributes the IN test
    against the departments that are the user's own or carry the user's
    department identifier in their ancestors chain.  On an entity with the
    department column it lets through exactly the rows whose department is
    such a department; when the user's own department is a department
    record, these are the rows whose department equals the user's or is a
    department with the user's in its ancestors chain. *)
Theorem C8_dept_and_child self cu r :
  admin (user cu) = false ->
  (forall r', In r' (role (user cu)) -> data_scope r' <> DATA_SCOPE_ALL) ->
  In r (role (user cu)) ->
  data_scope r = DATA_SCOPE_DEPT_AND_CHILD ->
  let d := dept_id (user cu) in
  let op := Guarded (dept_alias self) (In_dept_subtree d) in
  role_branch self cu r = Append (render self op)
  /\ In (render self op) (param_sql_list self cu)
  /\ (forall e db row,
         hasattr e (dept_alias self) = true ->
         (operand_admits e db op row = Ok true
          <-> exists v x, row (dept_alias self) = Some v
                          /\ In x (Db.sys_dept db) /\ Db.d_dept_id x = v
                          /\ (v = d \/ In (Py.str_int d)
                                          (Py.split_commas (Db.d_ancestors x))))
         /\ (In d (map Db.d_dept_id (Db.sys_dept db)) ->
             (operand_admits e db op row = Ok true
              <-> exists v, row (dept_alias self) = Some v
                            /\ (v = d
                                \/ exists x, In x (Db.sys_dept db)
                                             /\ Db.d_dept_id x = v
                                             /\ In (Py.str_int d)
                                                   (Py.split_commas (Db.d_ancestors x)))))).
Proof.
  intros Hadm Hall Hin Hr d op.
  assert (Hop : role_operand self cu r = op).
  { unfold role_operand. rewrite Hr. reflexivity. }
  split; [|split].
  - rewrite role_branch_plain; [|assumption|rewrite Hr; discriminate].
    unfold role_sql. now rewrite Hop.
  - rewrite <- Hop. apply role_sql_in_list; assumption.
  - intros e db row He.
    assert (Hgen : operand_admits e db op row = Ok true
                   <-> exists v x, row (dept_alias self) = Some v
                                   /\ In x (Db.sys_dept db) /\ Db.d_dept_id x = v
                                   /\ (v = d \/ In (Py.str_int d)
                                                   (Py.split_commas (Db.d_ancestors x)))).
    { unfold op. rewrite (guarded_admits e db _ _ row He). simpl. split.
      - intros [v [Hv Hc]]. apply existsb_Zeqb, in_subtree in Hc as [x Hx].
        exists v, x. tauto.
      - intros [v [x [Hv Hx]]]. exists v. split; [assumption|].
        apply existsb_Zeqb, in_subtree. exists x. tauto. }
    split; [exact Hgen|].
    intros Hd. rewrite Hgen. split.
    + intros [v [x [Hv [Hx [Hid [Heq | Hanc]]]]]]; exists v; split; try assumption.
      * now left.
      * right. exists x. auto.
    + intros [v [Hv [Heq | [x [Hx [Hid Hanc]]]]]].
      * apply in_map_iff in Hd as [x [Hid Hx]].
        exists v, x. subst v. auto.
      * exists v, x. auto.
Qed.

(** Department 12 has 5 in its ancestors chain [0,1,5]. *)
Lemma C8_dept_and_child_witness :
  data_scope (mkRole 40 "4") = DATA_SCOPE_DEPT_AND_CHILD
  /\ call for_SysUser user_dept_and_child
     = "or_(SysUser.dept_id.in_(select(SysDept.dept_id).where(or_(SysDept.dept_id == 5, func.find_in_set(5, SysDept.ancestors)))) if hasattr(SysUser, 'dept_id') else 1 == 0)"
  /\ operand_admits SysUser sample_db (Guarded "dept_id" (In_dept_subtree 5))
                    row_dept_12 = Ok true.
Proof.
  assert (Hall : forall r, In r (role (user user_dept_and_child)) ->
                           data_scope r <> DATA_SCOPE_ALL).
  { simpl. intros r [<- | []]; discriminate. }
  assert (Hin : In (mkRole 40 "4") (role (user user_dept_and_child))).
  { simpl. left. reflexivity. }
  destruct (C8_dept_and_child for_SysUser user_dept_and_child (mkRole 40 "4")
              eq_refl Hall Hin eq_refl) as [_ [_ Hsem]].
  split; [reflexivity|]. split; [reflexivity|].
  destruct (Hsem SysUser sample_db row_dept_12 eq_refl) as [Hgen _].
  apply Hgen.
  exists 12%Z, (Db.mkDept 12 "0,1,5"). simpl. auto 10.
Defined.

(** An unrelated department is kept out. *)
Example dept_and_child_row_excluded :
  operand_admits SysUser sample_db (Guarded "dept_id" (In_dept_subtree 5))
                 row_dept_99 = Ok false.
Proof. reflexivity. Qed.

(** ** Further properties of the filter *)

Lemma collected_operands self cu :
  collected self cu = map (render self) (operands self cu).
Proof.
  rewrite collected_spec. unfold operands.
  destruct (short_circuits cu); [reflexivity|].
  unfold role_sql. now rewrite map_map.
Qed.

Lemma short_circuits_ops self cu :
  short_circuits cu = true ->
  param_sql_list self cu = ["1 == 1"] /\ call self cu = "or_(1 == 1)".
Proof.
  intros Hsc.
  assert (Hl : param_sql_list self cu = ["1 == 1"]).
  { unfold param_sql_list. now rewrite collected_spec, Hsc. }
  split; [exact Hl | now rewrite (call_of_list _ _ _ Hl)].
Qed.

Lemma no_short_circuit_ops self cu :
  short_circuits cu = false ->
  param_sql_list self cu = Py.fromkeys (map (role_sql self cu) (role (user cu))).
Proof.
  intros Hsc. unfold param_sql_list. now rewrite collected_spec, Hsc.
Qed.

(** Strings that end in the character [0] and strings that end in [1]. *)
Lemma ends_differ p q : p ++ "0" <> q ++ "1".
Proof.
  revert q. induction p as [|c p IH]; intros [|c' q]; simpl; intros E.
  - discriminate.
  - injection E as _ E. destruct q; discriminate.
  - injection E as _ E. destruct p; discriminate.
  - injection E as _ E. exact (IH q E).
Qed.

Lemma ends_0_prepend a t : (exists p, t = p ++ "0") -> exists p, a ++ t = p ++ "0".
Proof.
  intros [p ->]. exists (a ++ p). now rewrite append_assoc.
Qed.

Lemma role_operand_not_always self cu r : role_operand self cu r <> Always.
Proof.
  unfold role_operand.
  repeat match goal with
         | |- context [if ?b then _ else _] => destruct b
         end; discriminate.
Qed.

Lemma role_sql_ends_0 self cu r : exists p, role_sql self cu r = p ++ "0".
Proof.
  unfold role_sql.
  destruct (role_operand self cu r) as [| |col c] eqn:E.
  - exfalso. exact (role_operand_not_always self cu r E).
  - exists "1 == ". reflexivity.
  - cbn [render].
    repeat apply ends_0_prepend. exists "') else 1 == ". reflexivity.
Qed.

Lemma join_ends_0 sep l :
  l <> [] ->
  (forall s, In s l -> exists p, s = p ++ "0") ->
  exists p, Py.join sep l = p ++ "0".
Proof.
  unfold Py.join.
  induction l as [|x l IH]; intros Hne Hall; [congruence|].
  destruct l as [|y l].
  - simpl. apply Hall. now left.
  - change (String.concat sep (x :: y :: l))
      with (x ++ sep ++ String.concat sep (y :: l)).
    apply ends_0_prepend, ends_0_prepend, IH; [discriminate|].
    intros s Hs. apply Hall. now right.
Qed.

Lemma append_char_inj a b c : a ++ String c "" = b ++ String c "" -> a = b.
Proof.
  revert b. induction a as [|x a IH]; intros [|y b]; simpl; intros E.
  - reflexivity.
  - injection E as _ E. destruct b; discriminate.
  - injection E as _ E. destruct a; discriminate.
  - injection E as -> E. f_equal. now apply IH.
Qed.

(** X1: the administrator bypass where the code has it.  An administrator
    who holds at least one role, of whatever scopes, gets [or_(1 == 1)], and
    the filter lets every row of every entity through. *)
Theorem X1_admin_with_role_sees_all self cu :
  admin (user cu) = true ->
  role (user cu) <> [] ->
  call self cu = "or_(1 == 1)"
  /\ operands self cu = [Always]
  /\ (forall o e db row, filter_admits o e db self cu row = true).
Proof.
  intros Hadm Hne.
  assert (Hsc : short_circuits cu = true).
  { unfold short_circuits. rewrite Hadm.
    destruct (role (user cu)); [congruence | reflexivity]. }
  split; [apply (short_circuits_ops self cu Hsc)|].
  assert (Hops : operands self cu = [Always]).
  { unfold operands. now rewrite Hsc. }
  split; [exact Hops|].
  intros o e db row. unfold filter_admits. rewrite Hops. reflexivity.
Qed.

(** An administrator whose roles are all narrow. *)
Lemma X1_admin_with_role_sees_all_witness :
  admin (user (with_roles admin_without_roles [mkRole 22 "5"; mkRole 50 "6"])) = true
  /\ call for_SysUser (with_roles admin_without_roles [mkRole 22 "5"; mkRole 50 "6"])
     = "or_(1 == 1)".
Proof.
  split; [reflexivity|].
  apply (X1_admin_with_role_sees_all for_SysUser
           (with_roles admin_without_roles [mkRole 22 "5"; mkRole 50 "6"]) eq_refl).
  discriminate.
Defined.

(** X2: the universal-true result is returned only on a short-circuit.
    [__call__] returns [or_(1 == 1)] exactly when the user is an
    administrator holding some role or holds a role of scope ALL; for anyone
    else no combination of roles and aliases produces it. *)
Theorem X2_universal_true_only_by_short_circuit self cu :
  call self cu = "or_(1 == 1)" <-> short_circuits cu = true.
Proof.
  split; [|apply short_circuits_ops].
  intros Hcall. destruct (short_circuits cu) eqn:Hsc; [reflexivity|]. exfalso.
  unfold call in Hcall. rewrite (no_short_circuit_ops self cu Hsc) in Hcall.
  destruct (role (user cu)) as [|r roles] eqn:Hroles.
  - vm_compute in Hcall. discriminate.
  - destruct (join_ends_0 ", " (Py.fromkeys (map (role_sql self cu) (r :: roles))))
      as [p Hp].
    + intros E. pose proof (fromkeys_nonempty (role_sql self cu r)
                              (map (role_sql self cu) roles)) as Hlen.
      simpl map in E. rewrite E in Hlen. simpl in Hlen. lia.
    + intros s Hs. apply fromkeys_In, in_map_iff in Hs as [r' [<- _]].
      apply role_sql_ends_0.
    + rewrite Hp in Hcall. simpl in Hcall.
      injection Hcall as Hcall.
      change "1 == 1)" with ("1 == 1" ++ ")") in Hcall.
      apply append_char_inj in Hcall.
      exact (ends_differ p "1 == " Hcall).
Qed.

(** *** The rows a user's roles let through *)

Lemma lets_through_guarded e db col c row :
  lets_through e db (Guarded col c) row = true
  <-> hasattr e col = true
      /\ exists v, row col = Some v /\ condition_holds db c v = true.
Proof.
  unfold lets_through, operand_admits, py_eval, attribute_test.
  destruct (hasattr e col); simpl.
  - destruct (row col) as [v|]; split.
    + intros H. split; [reflexivity|]. exists v. auto.
    + intros [_ [w [Hw Hc]]]. now inversion Hw; subst.
    + discriminate.
    + intros [_ [w [Hw _]]]. discriminate.
  - split; [discriminate | intros [H _]; discriminate].
Qed.

Lemma with_roles_role cu roles : role (user (with_roles cu roles)) = roles.
Proof. reflexivity. Qed.

(** What a CUSTOM role's operand lets through, in either of its two forms:
    departments granted to some CUSTOM role the user holds. *)
Lemma custom_operand_sound self cu r e db row :
  In r (role (user cu)) ->
  data_scope r = DATA_SCOPE_CUSTOM ->
  lets_through e db (role_operand self cu r) row = true ->
  hasattr e (dept_alias self) = true
  /\ exists v r0, row (dept_alias self) = Some v
                  /\ In r0 (role (user cu))
                  /\ data_scope r0 = DATA_SCOPE_CUSTOM
                  /\ In v (Db.granted db (role_id r0)).
Proof.
  intros Hin Hr. unfold role_operand. rewrite Hr. simpl.
  destruct (1 <? _)%nat; rewrite lets_through_guarded; simpl;
    intros [He [v [Hv Hc]]]; (split; [exact He|]).
  - apply existsb_Zeqb, in_granted_among in Hc as [rid [Hrid Hg]].
    apply custom_ids_In in Hrid as [r0 [Hin0 [Hs0 Hid]]].
    exists v, r0. subst rid. auto.
  - apply existsb_Zeqb in Hc. exists v, r. auto.
Qed.

Lemma custom_operand_complete self cu r0 e db row v :
  In r0 (role (user cu)) ->
  data_scope r0 = DATA_SCOPE_CUSTOM ->
  hasattr e (dept_alias self) = true ->
  row (dept_alias self) = Some v ->
  In v (Db.granted db (role_id r0)) ->
  lets_through e db (role_operand self cu r0) row = true.
Proof.
  intros Hin Hr He Hv Hg. unfold role_operand. rewrite Hr. simpl.
  destruct (1 <? _)%nat; apply lets_through_guarded; simpl;
    (split; [exact He|]); exists v; (split; [exact Hv|]); apply existsb_Zeqb.
  - apply in_granted_among. exists (role_id r0). split; [|exact Hg].
    apply custom_ids_In. exists r0. auto.
  - exact Hg.
Qed.

(** The operand of a role that is not CUSTOM depends on the user's own
    identifiers only. *)
Lemma other_operand_same self cu roles r :
  data_scope r <> DATA_SCOPE_CUSTOM ->
  role_operand self (with_roles cu roles) r = role_operand self cu r.
Proof.
  intros Hr. apply String.eqb_neq in Hr. unfold role_operand. now rewrite Hr.
Qed.

(** Every row some role of [roles] lets through, some role of a larger list
    lets through. *)
Lemma some_role_transfers self cu roles roles' e db row :
  incl roles roles' ->
  (exists r, In r roles
             /\ lets_through e db (role_operand self (with_roles cu roles) r) row = true) ->
  exists r, In r roles'
            /\ lets_through e db (role_operand self (with_roles cu roles') r) row = true.
Proof.
  intros Hincl [r [Hin Hr]].
  destruct (String.eqb_spec (data_scope r) DATA_SCOPE_CUSTOM) as [Hc | Hc].
  - destruct (custom_operand_sound self (with_roles cu roles) r e db row Hin Hc Hr)
      as [He [v [r0 [Hv [Hin0 [Hc0 Hg]]]]]].
    exists r0. split; [now apply Hincl|].
    apply (custom_operand_complete self (with_roles cu roles') r0 e db row v);
      auto.
  - exists r. split; [now apply Hincl|].
    rewrite other_operand_same in * by assumption. exact Hr.
Qed.

Lemma short_circuits_with_roles cu roles :
  short_circuits (with_roles cu roles)
  = (admin (user cu) && negb (Nat.eqb (List.length roles) 0))
    || existsb (fun r => data_scope r =? DATA_SCOPE_ALL) roles.
Proof. reflexivity. Qed.

Lemma short_circuits_incl cu roles roles' :
  incl roles roles' -> roles <> [] ->
  short_circuits (with_roles cu roles) = true ->
  short_circuits (with_roles cu roles') = true.
Proof.
  intros Hincl Hne. rewrite !short_circuits_with_roles.
  intros H. apply orb_true_iff in H as [H | H]; apply orb_true_iff.
  - left. apply andb_true_iff in H as [Hadm _]. rewrite Hadm. simpl.
    destruct roles as [|r roles]; [congruence|].
    destruct roles' as [|r' roles']; [|reflexivity].
    destruct (Hincl r (or_introl eq_refl)).
  - right. apply existsb_exists in H as [r [Hin Hr]].
    apply existsb_exists. exists r. split; [now apply Hincl | exact Hr].
Qed.

(** The filter of a user holding [roles], spelt out. *)
Lemma filter_admits_cases o e db self cu roles row :
  filter_admits o e db self (with_roles cu roles) row = true <->
  short_circuits (with_roles cu roles) = true
  \/ (short_circuits (with_roles cu roles) = false /\ roles = [] /\ o = true)
  \/ (short_circuits (with_roles cu roles) = false
      /\ exists r, In r roles
                   /\ lets_through e db (role_operand self (with_roles cu roles) r) row
                      = true).
Proof.
  unfold filter_admits, operands. rewrite with_roles_role.
  destruct (short_circuits (with_roles cu roles)) eqn:Hsc.
  - simpl. split; [auto | reflexivity].
  - destruct roles as [|r0 roles].
    + simpl. split.
      * intros ->. right. left. auto.
      * intros [H | [[_ [_ H]] | [_ [r [[] _]]]]]; [discriminate | exact H].
    + remember (r0 :: roles) as rs eqn:Ers.
      assert (Hm : map (role_operand self (with_roles cu rs)) rs
                   = role_operand self (with_roles cu rs) r0
                     :: map (role_operand self (with_roles cu rs)) roles).
      { rewrite Ers at 2. reflexivity. }
      rewrite Hm at 1. rewrite existsb_exists. split.
      * intros [op [Hop Hl]]. apply in_map_iff in Hop as [r [<- Hin]].
        right. right. split; [reflexivity|]. exists r. auto.
      * intros [H | [[_ [H _]] | [_ [r [Hin Hl]]]]];
          [discriminate | subst; discriminate |].
        exists (role_operand self (with_roles cu rs) r).
        split; [now apply in_map | exact Hl].
Qed.

Lemma filter_admits_incl o e db self cu roles roles' row :
  incl roles roles' ->
  roles <> [] ->
  filter_admits o e db self (with_roles cu roles) row = true ->
  filter_admits o e db self (with_roles cu roles') row = true.
Proof.
  intros Hincl Hne H.
  apply filter_admits_cases in H. apply filter_admits_cases.
  destruct H as [H | [[_ [H _]] | [_ H]]].
  - left. now apply (short_circuits_incl cu roles roles').
  - congruence.
  - destruct (short_circuits (with_roles cu roles')) eqn:Hsc'; [now left|].
    right. right. split; [reflexivity|].
    now apply (some_role_transfers self cu roles roles').
Qed.

(** X3: granting a user who holds some role further roles never hides a
    row: whatever the filter lets through for the roles held, it lets
    through for any list of roles that contains them. *)
Theorem X3_more_roles_never_hide_rows o e db self cu roles roles' row :
  incl roles roles' ->
  roles <> [] ->
  filter_admits o e db self (with_roles cu roles) row = true ->
  filter_admits o e db self (with_roles cu roles') row = true.
Proof.
  apply filter_admits_incl.
Qed.

(** The SELF user's own row stays visible when a DEPT role is added. *)
Lemma X3_more_roles_never_hide_rows_witness :
  incl [mkRole 22 "5"] (role (user user_dept_self))
  /\ filter_admits false SysUser sample_db for_SysUser
       (with_roles user_dept_self [mkRole 22 "5"]) row_user_9_dept_8 = true
  /\ filter_admits false SysUser sample_db for_SysUser
       (with_roles user_dept_self (role (user user_dept_self))) row_user_9_dept_8 = true.
Proof.
  assert (Hincl : incl [mkRole 22 "5"] (role (user user_dept_self))).
  { intros r [<- | []]. simpl. auto. }
  split; [exact Hincl|]. split; [reflexivity|].
  apply (X3_more_roles_never_hide_rows false SysUser sample_db for_SysUser
           user_dept_self [mkRole 22 "5"] (role (user user_dept_self))
           row_user_9_dept_8 Hincl); [discriminate | reflexivity].
Defined.

(** X4: the order in which a user's roles are listed does not matter: any
    rearrangement of the roles gives a filter that lets through the same
    rows, although the strings may differ (the CUSTOM role-id list is
    written in role order). *)
Theorem X4_role_order_is_irrelevant o e db self cu roles roles' row :
  Permutation roles roles' ->
  filter_admits o e db self (with_roles cu roles) row
  = filter_admits o e db self (with_roles cu roles') row.
Proof.
  intros Hperm.
  destruct roles as [|r0 roles].
  - apply Permutation_nil in Hperm. now subst.
  - assert (Hne' : roles' <> []).
    { intros ->. apply Permutation_sym, Permutation_nil in Hperm. discriminate. }
    apply eq_true_iff_eq. split.
    + apply filter_admits_incl; [|discriminate].
      intros r. apply Permutation_in, Hperm.
    + apply filter_admits_incl; [|exact Hne'].
      intros r. apply Permutation_in, Permutation_sym, Hperm.
Qed.

(** The two CUSTOM roles in either order. *)
Lemma X4_role_order_is_irrelevant_witness :
  Permutation [mkRole 11 "2"; mkRole 13 "2"] [mkRole 13 "2"; mkRole 11 "2"]
  /\ call for_SysUser (with_roles user_two_custom [mkRole 13 "2"; mkRole 11 "2"])
     <> call for_SysUser (with_roles user_two_custom [mkRole 11 "2"; mkRole 13 "2"])
  /\ filter_admits false SysUser sample_db for_SysUser
       (with_roles user_two_custom [mkRole 11 "2"; mkRole 13 "2"]) row_dept_7
     = filter_admits false SysUser sample_db for_SysUser
         (with_roles user_two_custom [mkRole 13 "2"; mkRole 11 "2"]) row_dept_7.
Proof.
  assert (Hperm : Permutation [mkRole 11 "2"; mkRole 13 "2"]
                              [mkRole 13 "2"; mkRole 11 "2"]) by apply perm_swap.
  split; [exact Hperm|]. split; [vm_compute; discriminate|].
  apply (X4_role_order_is_irrelevant false SysUser sample_db for_SysUser
           user_two_custom _ _ row_dept_7 Hperm).
Defined.

(** Reading the returned operands one by one, each as what its template
    lets through, gives the rows of [filter_admits]. *)
Lemma admits_filter_admits o reading e db self cu row :
  (forall op, In op (operands self cu) ->
              reading (render self op) row = lets_through e db op row) ->
  admits o reading self cu row = filter_admits o e db self cu row.
Proof.
  intros Hread. unfold admits, filter_admits, param_sql_list.
  rewrite collected_operands.
  destruct (operands self cu) as [|op ops] eqn:Eops; [reflexivity|].
  pose proof (fromkeys_nonempty (render self op) (map (render self) ops)) as Hlen.
  change (render self op :: map (render self) ops)
    with (map (render self) (op :: ops)) in Hlen.
  destruct (Py.fromkeys (map (render self) (op :: ops))) as [|y k] eqn:Ek;
    [simpl in Hlen; lia|].
  unfold or_admits. rewrite <- Ek.
  rewrite (existsb_same_members (fun s => reading s row)
             (Py.fromkeys (map (render self) (op :: ops)))
             (map (render self) (op :: ops)))
    by (intros s; apply fromkeys_In).
  apply eq_true_iff_eq. rewrite !existsb_exists. split.
  - intros [s [Hs Hr]]. apply in_map_iff in Hs as [op' [<- Hin]].
    exists op'. split; [exact Hin|]. now rewrite <- Hread.
  - intros [op' [Hin Hl]]. exists (render self op').
    split; [now apply in_map|]. now rewrite Hread.
Qed.

(** X5: a plain user's only CUSTOM role contributes the test against that
    role's own grants ([role_id == <id>]), which lets through the same rows
    as the list form over the one-element CUSTOM role-id list would. *)
Theorem X5_single_custom_role self cu r :
  admin (user cu) = false ->
  In r (role (user cu)) ->
  data_scope r = DATA_SCOPE_CUSTOM ->
  List.length (filter (fun x => data_scope x =? DATA_SCOPE_CUSTOM) (role (user cu))) = 1 ->
  custom_data_scope_role_id_list cu = [role_id r]
  /\ role_branch self cu r
     = Append (render self (Guarded (dept_alias self) (In_role_depts_of (role_id r))))
  /\ (forall e db row,
         lets_through e db (Guarded (dept_alias self) (In_role_depts_of (role_id r))) row
         = lets_through e db
             (Guarded (dept_alias self)
                      (In_role_depts_among (custom_data_scope_role_id_list cu))) row).
Proof.
  intros Hadm Hin Hr Hone.
  assert (Hids : custom_data_scope_role_id_list cu = [role_id r]).
  { unfold custom_data_scope_role_id_list.
    destruct (filter (fun x => data_scope x =? DATA_SCOPE_CUSTOM) (role (user cu)))
      as [|x [|y rest]] eqn:Ef; try discriminate.
    assert (Hx : In r [x]).
    { rewrite <- Ef. apply filter_In. split; [exact Hin | now apply String.eqb_eq]. }
    destruct Hx as [-> | []]. reflexivity. }
  split; [exact Hids|]. split.
  - rewrite role_branch_plain; [|exact Hadm|rewrite Hr; discriminate].
    unfold role_sql, role_operand. rewrite Hr, Hids. reflexivity.
  - intros e db row. rewrite Hids. apply eq_true_iff_eq.
    rewrite !lets_through_guarded. simpl.
    assert (Hsame : forall v, existsb (Z.eqb v) (Db.granted db (role_id r)) = true
                              <-> existsb (Z.eqb v) (Db.granted_among db [role_id r]) = true).
    { intros v. rewrite !existsb_Zeqb, in_granted_among. split.
      - intros H. exists (role_id r). split; [now left | exact H].
      - intros [rid [[<- | []] H]]. exact H. }
    split; intros [He [v [Hv Hc]]]; (split; [exact He|]); exists v;
      (split; [exact Hv|]); now apply Hsame.
Qed.

(** A CUSTOM role beside a DEPT role. *)
Lemma X5_single_custom_role_witness :
  List.length (filter (fun x => data_scope x =? DATA_SCOPE_CUSTOM)
                      (role (user (with_roles user_two_custom
                                              [mkRole 21 "3"; mkRole 13 "2"])))) = 1
  /\ role_branch for_SysUser
       (with_roles user_two_custom [mkRole 21 "3"; mkRole 13 "2"]) (mkRole 13 "2")
     = Append "SysUser.dept_id.in_(select(SysRoleDept.dept_id).where(SysRoleDept.role_id == 13)) if hasattr(SysUser, 'dept_id') else 1 == 0".
Proof.
  split; [reflexivity|].
  apply (X5_single_custom_role for_SysUser
           (with_roles user_two_custom [mkRole 21 "3"; mkRole 13 "2"])
           (mkRole 13 "2") eq_refl).
  - simpl. auto.
  - reflexivity.
  - reflexivity.
Defined.

Lemma fold_dict_set_distinct l : forall d,
  NoDup (d ++ l) -> fold_left Py.dict_set l d = (d ++ l)%list.
Proof.
  induction l as [|k l IH]; intros d Hnd; simpl.
  - now rewrite app_nil_r.
  - assert (Hk : Py.dict_has d k = false).
    { apply not_true_is_false. intros H. apply dict_has_In in H.
      apply NoDup_remove_2 in Hnd. apply Hnd, in_or_app. now left. }
    unfold Py.dict_set at 2. rewrite Hk.
    rewrite IH; rewrite <- app_assoc; [reflexivity | exact Hnd].
Qed.

(** X6: deduplication only ever removes repeats.  When the collected
    strings are pairwise distinct they are returned unchanged and in role
    order, and deduplicating the returned operands once more changes
    nothing. *)
Theorem X6_dedup_keeps_distinct_operands self cu :
  (NoDup (collected self cu) -> param_sql_list self cu = collected self cu)
  /\ Py.fromkeys (param_sql_list self cu) = param_sql_list self cu.
Proof.
  split.
  - intros Hnd. unfold param_sql_list, Py.fromkeys.
    now rewrite fold_dict_set_distinct.
  - unfold Py.fromkeys at 1. rewrite fold_dict_set_distinct; [reflexivity|].
    apply fromkeys_NoDup.
Qed.

(** A DEPT and a SELF role: two distinct strings, both kept, in order. *)
Lemma X6_dedup_keeps_distinct_operands_witness :
  NoDup (collected for_SysUser user_dept_self)
  /\ param_sql_list for_SysUser user_dept_self
     = ["SysUser.dept_id == 5 if hasattr(SysUser, 'dept_id') else 1 == 0";
        "SysUser.user_id == 9 if hasattr(SysUser, 'user_id') else 1 == 0"].
Proof.
  assert (Hnd : NoDup (collected for_SysUser user_dept_self)).
  { vm_compute. constructor.
    - intros [H | []]. discriminate.
    - constructor; [intros [] | constructor]. }
  split; [exact Hnd|].
  rewrite (proj1 (X6_dedup_keeps_distinct_operands for_SysUser user_dept_self) Hnd).
  reflexivity.
Defined.

(** X7: DEPT_AND_CHILD is at least as permissive as DEPT.  When the user's
    department is a department record, every row the operand of a DEPT role
    lets through, the operand of a DEPT_AND_CHILD role lets through as
    well. *)
Theorem X7_dept_and_child_covers_dept self cu r1 r2 e db row :
  data_scope r1 = DATA_SCOPE_DEPT ->
  data_scope r2 = DATA_SCOPE_DEPT_AND_CHILD ->
  In (dept_id (user cu)) (map Db.d_dept_id (Db.sys_dept db)) ->
  lets_through e db (role_operand self cu r1) row = true ->
  lets_through e db (role_operand self cu r2) row = true.
Proof.
  intros H1 H2 Hd. unfold role_operand. rewrite H1, H2. simpl.
  rewrite !lets_through_guarded. simpl.
  intros [He [v [Hv Hc]]]. split; [exact He|]. exists v. split; [exact Hv|].
  apply Z.eqb_eq in Hc. subst v.
  apply existsb_Zeqb, in_subtree.
  apply in_map_iff in Hd as [x [Hid Hx]].
  exists x. auto.
Qed.

(** A row of the user's own department 5, which is in [sample_db]. *)
Lemma X7_dept_and_child_covers_dept_witness :
  In (dept_id (user user_dept_and_child)) (map Db.d_dept_id (Db.sys_dept sample_db))
  /\ lets_through SysUser sample_db
       (role_operand for_SysUser user_dept_and_child (mkRole 40 "4"))
       row_user_2_dept_5 = true.
Proof.
  assert (Hd : In (dept_id (user user_dept_and_child))
                  (map Db.d_dept_id (Db.sys_dept sample_db))).
  { simpl. auto. }
  split; [exact Hd|].
  apply (X7_dept_and_child_covers_dept for_SysUser user_dept_and_child
           (mkRole 21 "3") (mkRole 40 "4") SysUser sample_db row_user_2_dept_5
           eq_refl eq_refl Hd).
  reflexivity.
Defined.

(** Without the department record the DEPT row is lost to DEPT_AND_CHILD. *)
Example dept_and_child_needs_the_department_record :
  lets_through SysUser (Db.mk [] [])
    (role_operand for_SysUser user_dept_and_child (mkRole 0 DATA_SCOPE_DEPT))
    row_user_2_dept_5 = true
  /\ lets_through SysUser (Db.mk [] [])
       (role_operand for_SysUser user_dept_and_child (mkRole 0 DATA_SCOPE_DEPT_AND_CHILD))
       row_user_2_dept_5 = false.
Proof. split; reflexivity. Qed.

(** ** The interface permission checks *)

Module InterfaceAuthFacts.
Import InterfaceAuth.

Lemma py_in_In x l : py_in x l = true <-> In x l.
Proof.
  unfold py_in. rewrite existsb_exists. split.
  - intros [y [Hy E]]. apply String.eqb_eq in E. now subst.
  - intros H. exists x. split; [exact H | apply String.eqb_refl].
Qed.

Lemma py_in_incl x l l' : incl l l' -> py_in x l = true -> py_in x l' = true.
Proof.
  intros Hincl H. apply py_in_In. apply Hincl. now apply py_in_In.
Qed.

Lemma forallb_exists_nonempty (f : string -> bool) l :
  l <> [] -> forallb f l = true -> existsb f l = true.
Proof.
  destruct l as [|x l]; [congruence|]. simpl. intros _ H.
  apply andb_true_iff in H as [H _]. now rewrite H.
Qed.

(** The check against a list of held strings that both [__call__]s share
    once the wildcard is out of the way. *)
Lemma check_user_no_wildcard spec strict cu :
  py_in "*:*:*" (permissions cu) = false ->
  check_user (mkUserAuth spec strict) cu
  = check_role (mkRoleAuth spec strict)
      (mkCurrentUser [] (map mkRoleKeyed (permissions cu))).
Proof.
  intros Hw. unfold check_user, check_role. simpl. rewrite Hw.
  rewrite map_map. simpl. now rewrite map_id.
Qed.

End InterfaceAuthFacts.

(** X8: the empty list is an edge of both permission checks.  In strict mode
    a check built with an empty list lets every user in ([all([])] is true);
    in non-strict mode it raises for every user (the permission check
    sparing only a holder of the wildcard [*:*:*]). *)
Theorem X8_empty_requirement_list cu :
  InterfaceAuth.check_user (InterfaceAuth.mkUserAuth (InterfaceAuth.Lst []) true) cu
  = InterfaceAuth.ReturnsTrue
  /\ InterfaceAuth.check_role (InterfaceAuth.mkRoleAuth (InterfaceAuth.Lst []) true) cu
     = InterfaceAuth.ReturnsTrue
  /\ InterfaceAuth.check_role (InterfaceAuth.mkRoleAuth (InterfaceAuth.Lst []) false) cu
     = InterfaceAuth.denied
  /\ InterfaceAuth.check_user (InterfaceAuth.mkUserAuth (InterfaceAuth.Lst []) false) cu
     = (if InterfaceAuth.py_in "*:*:*" (InterfaceAuth.permissions cu)
        then InterfaceAuth.ReturnsTrue else InterfaceAuth.denied).
Proof.
  unfold InterfaceAuth.check_user, InterfaceAuth.check_role. simpl.
  repeat split; destruct (InterfaceAuth.py_in "*:*:*" (InterfaceAuth.permissions cu));
    reflexivity.
Qed.

(** X9: for a non-empty list of required permissions or role keys, strict
    mode is the stronger requirement: whoever passes the strict check passes
    the non-strict one. *)
Theorem X9_strict_implies_non_strict l cu :
  l <> [] ->
  (InterfaceAuth.check_user (InterfaceAuth.mkUserAuth (InterfaceAuth.Lst l) true) cu
   = InterfaceAuth.ReturnsTrue ->
   InterfaceAuth.check_user (InterfaceAuth.mkUserAuth (InterfaceAuth.Lst l) false) cu
   = InterfaceAuth.ReturnsTrue)
  /\ (InterfaceAuth.check_role (InterfaceAuth.mkRoleAuth (InterfaceAuth.Lst l) true) cu
      = InterfaceAuth.ReturnsTrue ->
      InterfaceAuth.check_role (InterfaceAuth.mkRoleAuth (InterfaceAuth.Lst l) false) cu
      = InterfaceAuth.ReturnsTrue).
Proof.
  intros Hne. unfold InterfaceAuth.check_user, InterfaceAuth.check_role. simpl.
  split.
  - destruct (InterfaceAuth.py_in "*:*:*" (InterfaceAuth.permissions cu)); [auto|].
    destruct (forallb _ l) eqn:Hall; [|discriminate]. intros _.
    now rewrite (InterfaceAuthFacts.forallb_exists_nonempty _ l Hne Hall).
  - destruct (forallb _ l) eqn:Hall; [|discriminate]. intros _.
    now rewrite (InterfaceAuthFacts.forallb_exists_nonempty _ l Hne Hall).
Qed.

(** A user holding both listed permissions. *)
Lemma X9_strict_implies_non_strict_witness :
  perms_list_query <> []
  /\ InterfaceAuth.check_user
       (InterfaceAuth.mkUserAuth (InterfaceAuth.Lst perms_list_query) true)
       richer_current_user = InterfaceAuth.ReturnsTrue
  /\ InterfaceAuth.check_user
       (InterfaceAuth.mkUserAuth (InterfaceAuth.Lst perms_list_query) false)
       richer_current_user = InterfaceAuth.ReturnsTrue.
Proof.
  assert (Hne : perms_list_query <> []) by discriminate.
  split; [exact Hne|]. split; [reflexivity|].
  apply (proj1 (X9_strict_implies_non_strict perms_list_query richer_current_user Hne)).
  reflexivity.
Defined.

(** X10: the permission check is monotone in what the user holds: a user
    who holds every permission of another user (and maybe more) passes
    every check the other passes, in either mode. *)
Theorem X10_more_permissions_never_lock_out self cu cu' :
  incl (InterfaceAuth.permissions cu) (InterfaceAuth.permissions cu') ->
  InterfaceAuth.check_user self cu = InterfaceAuth.ReturnsTrue ->
  InterfaceAuth.check_user self cu' = InterfaceAuth.ReturnsTrue.
Proof.
  intros Hincl. unfold InterfaceAuth.check_user.
  destruct (InterfaceAuth.py_in "*:*:*" (InterfaceAuth.permissions cu)) eqn:Hw.
  - now rewrite (InterfaceAuthFacts.py_in_incl _ _ _ Hincl Hw).
  - destruct (InterfaceAuth.py_in "*:*:*" (InterfaceAuth.permissions cu'));
      [reflexivity|].
    destruct (InterfaceAuth.perm self) as [p | l].
    + destruct (InterfaceAuth.py_in p (InterfaceAuth.permissions cu)) eqn:Hp;
        [|discriminate].
      now rewrite (InterfaceAuthFacts.py_in_incl _ _ _ Hincl Hp).
    + destruct (InterfaceAuth.is_strict self).
      * destruct (forallb _ l) eqn:Hall; [|discriminate]. intros _.
        assert (H' : forallb (fun perm_str =>
                                InterfaceAuth.py_in perm_str (InterfaceAuth.permissions cu')) l
                     = true).
        { apply forallb_forall. intros x Hx.
          apply (InterfaceAuthFacts.py_in_incl _ _ _ Hincl).
          exact (proj1 (forallb_forall _ l) Hall x Hx). }
        now rewrite H'.
      * destruct (existsb _ l) eqn:Hany; [|discriminate]. intros _.
        apply existsb_exists in Hany as [x [Hx Hp]].
        assert (H' : existsb (fun perm_str =>
                                InterfaceAuth.py_in perm_str (InterfaceAuth.permissions cu')) l
                     = true).
        { apply existsb_exists. exists x. split; [exact Hx|].
          now apply (InterfaceAuthFacts.py_in_incl _ _ _ Hincl). }
        now rewrite H'.
Qed.

(** The richer user holds what the plain user holds. *)
Lemma X10_more_permissions_never_lock_out_witness :
  incl (InterfaceAuth.permissions plain_current_user)
       (InterfaceAuth.permissions richer_current_user)
  /\ InterfaceAuth.check_user
       (InterfaceAuth.mkUserAuth (InterfaceAuth.Lst perms_list_query) false)
       richer_current_user = InterfaceAuth.ReturnsTrue.
Proof.
  assert (Hincl : incl (InterfaceAuth.permissions plain_current_user)
                       (InterfaceAuth.permissions richer_current_user)).
  { intros x [<- | []]. simpl. auto. }
  split; [exact Hincl|].
  apply (X10_more_permissions_never_lock_out
           (InterfaceAuth.mkUserAuth (InterfaceAuth.Lst perms_list_query) false)
           plain_current_user richer_current_user Hincl).
  reflexivity.
Defined.

(** X11: a single permission or role key given as a string is checked like
    the one-element list, in strict and in non-strict mode alike. *)
Theorem X11_string_is_singleton_list p strict cu :
  InterfaceAuth.check_user (InterfaceAuth.mkUserAuth (InterfaceAuth.Str p) strict) cu
  = InterfaceAuth.check_user (InterfaceAuth.mkUserAuth (InterfaceAuth.Lst [p]) strict) cu
  /\ InterfaceAuth.check_role (InterfaceAuth.mkRoleAuth (InterfaceAuth.Str p) strict) cu
     = InterfaceAuth.check_role (InterfaceAuth.mkRoleAuth (InterfaceAuth.Lst [p]) strict) cu.
Proof.
  unfold InterfaceAuth.check_user, InterfaceAuth.check_role. simpl.
  split.
  - destruct (InterfaceAuth.py_in "*:*:*" _); [reflexivity|].
    destruct strict, (InterfaceAuth.py_in p _); reflexivity.
  - destruct strict, (InterfaceAuth.py_in p _); reflexivity.
Qed.

(** X12: the role check knows no wildcard.  Away from the wildcard the two
    checks are one algorithm, the permission check over the held permissions
    being the role check over the same strings held as role keys; but a
    user whose only role key is [*:*:*] fails the role check for every
    other key, whatever permissions are held. *)
Theorem X12_no_wildcard_for_roles spec strict cu :
  (InterfaceAuth.py_in "*:*:*" (InterfaceAuth.permissions cu) = false ->
   InterfaceAuth.check_user (InterfaceAuth.mkUserAuth spec strict) cu
   = InterfaceAuth.check_role (InterfaceAuth.mkRoleAuth spec strict)
       (InterfaceAuth.mkCurrentUser []
          (map InterfaceAuth.mkRoleKeyed (InterfaceAuth.permissions cu))))
  /\ (forall k, k <> "*:*:*" ->
        InterfaceAuth.check_role
          (InterfaceAuth.mkRoleAuth (InterfaceAuth.Str k) strict)
          (InterfaceAuth.mkCurrentUser (InterfaceAuth.permissions cu)
                                       [InterfaceAuth.mkRoleKeyed "*:*:*"])
        = InterfaceAuth.denied).
Proof.
  split; [apply InterfaceAuthFacts.check_user_no_wildcard|].
  intros k Hk. unfold InterfaceAuth.check_role, InterfaceAuth.py_in. simpl.
  apply String.eqb_neq in Hk. now rewrite Hk.
Qed.

(** The plain user holds no wildcard. *)
Lemma X12_no_wildcard_for_roles_witness :
  InterfaceAuth.py_in "*:*:*" (InterfaceAuth.permissions plain_current_user) = false
  /\ InterfaceAuth.check_user
       (InterfaceAuth.mkUserAuth (InterfaceAuth.Lst perms_list_query) true)
       plain_current_user
     = InterfaceAuth.denied.
Proof.
  split; [reflexivity|].
  rewrite (proj1 (X12_no_wildcard_for_roles (InterfaceAuth.Lst perms_list_query) true
                    plain_current_user) eq_refl).
  reflexivity.
Defined.

(** ** The department service *)

Module DeptServiceFacts.
Import DeptService.

Lemma prefix_nil s : String.prefix "" s = true.
Proof. destruct s; reflexivity. Qed.

Lemma prefix_cons a p b s :
  String.prefix (String a p) (String b s) = if ascii_dec a b then String.prefix p s else false.
Proof. simpl. destruct (ascii_dec a b); reflexivity. Qed.

Lemma prefix_app p rest : String.prefix p (p ++ rest) = true.
Proof.
  induction p as [|a p IH]; [apply prefix_nil|].
  simpl append. rewrite prefix_cons. destruct (ascii_dec a a); [exact IH | congruence].
Qed.

Lemma prefix_split p s : String.prefix p s = true -> exists rest, s = p ++ rest.
Proof.
  revert s. induction p as [|a p IH]; intros s H.
  - exists s. reflexivity.
  - destruct s as [|b s]; [discriminate|].
    rewrite prefix_cons in H. destruct (ascii_dec a b) as [->|]; [|discriminate].
    destruct (IH s H) as [rest ->]. exists rest. reflexivity.
Qed.

Lemma drop_app p rest : drop (String.length p) (p ++ rest) = rest.
Proof.
  induction p as [|a p IH]; simpl; [now destruct rest | exact IH].
Qed.

Lemma replace_1_hit s old new :
  String.prefix old s = true ->
  replace_1 s old new = new ++ drop (String.length old) s.
Proof.
  intros H. destruct s; cbn [replace_1]; now rewrite H.
Qed.

Lemma replace_1_prefix old new rest : replace_1 (old ++ rest) old new = new ++ rest.
Proof.
  rewrite replace_1_hit by apply prefix_app. now rewrite drop_app.
Qed.

Lemma replace_first_prefix old new rest :
  replace_first (old ++ rest) old new = new ++ rest.
Proof.
  unfold replace_first, startswith. now rewrite prefix_app, replace_1_prefix.
Qed.

(** Splitting at commas distributes over a comma-joined pair. *)
Lemma split_commas_from_join a : forall cur b,
  Py.split_commas_from cur (a ++ String ","%char b)
  = (Py.split_commas_from cur a ++ Py.split_commas b)%list.
Proof.
  induction a as [|c a IH]; intros cur b.
  - reflexivity.
  - simpl. destruct (Ascii.eqb c ","); simpl; now rewrite IH.
Qed.

Lemma split_commas_join a b :
  Py.split_commas (a ++ "," ++ b) = (Py.split_commas a ++ Py.split_commas b)%list.
Proof. apply (split_commas_from_join a "" b). Qed.

Lemma find_in_set_join d a b :
  Db.find_in_set d (a ++ "," ++ b) = Db.find_in_set d a || Db.find_in_set d b.
Proof.
  unfold Db.find_in_set. now rewrite split_commas_join, existsb_app.
Qed.

Lemma append_nil_r s : s ++ "" = s.
Proof. induction s; simpl; congruence. Qed.

Lemma find_in_set_join_cons d a b :
  Db.find_in_set d (a ++ String ","%char b) = Db.find_in_set d a || Db.find_in_set d b.
Proof. exact (find_in_set_join d a b). Qed.

(** Decimal numerals hold no comma. *)
Lemma split_commas_from_uint u : forall cur,
  Py.split_commas_from cur (NilEmpty.string_of_uint u)
  = [cur ++ NilEmpty.string_of_uint u].
Proof.
  induction u; intros cur; cbn [NilEmpty.string_of_uint Py.split_commas_from];
    [now rewrite append_nil_r|..];
    match goal with
    | |- context [Ascii.eqb ?a ?b] => change (Ascii.eqb a b) with false
    end; cbv iota; rewrite IHu, append_assoc; reflexivity.
Qed.

Lemma split_commas_str_int z : Py.split_commas (Py.str_int z) = [Py.str_int z].
Proof.
  unfold Py.split_commas, Py.str_int, NilEmpty.string_of_int.
  destruct (Z.to_int z) as [u | u].
  - apply split_commas_from_uint.
  - cbn [Py.split_commas_from]. change (Ascii.eqb "-" ",") with false. cbv iota.
    apply split_commas_from_uint.
Qed.

Lemma find_in_set_self z : Db.find_in_set z (Py.str_int z) = true.
Proof.
  unfold Db.find_in_set. rewrite split_commas_str_int. simpl.
  now rewrite String.eqb_refl.
Qed.

End DeptServiceFacts.

(** X13: [replace_first] touches a leading occurrence only.  A string that
    starts with [old_str] has that prefix, and nothing after it, replaced by
    [new_str], whether or not [old_str] occurs again further on; any other
    string is returned as it is. *)
Theorem X13_replace_first_replaces_the_prefix original_str old_str new_str :
  (DeptService.startswith original_str old_str = true ->
   exists rest, original_str = old_str ++ rest
                /\ DeptService.replace_first original_str old_str new_str
                   = new_str ++ rest)
  /\ (DeptService.startswith original_str old_str = false ->
      DeptService.replace_first original_str old_str new_str = original_str).
Proof.
  split.
  - intros H. destruct (DeptServiceFacts.prefix_split _ _ H) as [rest ->].
    exists rest. split; [reflexivity | apply DeptServiceFacts.replace_first_prefix].
  - intros H. unfold DeptService.replace_first. now rewrite H.
Qed.

(** The chain [0,100,101,0,100] moved from under [0,100] to under [0,200]. *)
Lemma X13_replace_first_replaces_the_prefix_witness :
  DeptService.startswith "0,100,101,0,100" "0,100" = true
  /\ exists rest, "0,100,101,0,100" = "0,100" ++ rest
                  /\ DeptService.replace_first "0,100,101,0,100" "0,100" "0,200"
                     = "0,200" ++ rest.
Proof.
  split; [reflexivity|].
  apply (proj1 (X13_replace_first_replaces_the_prefix "0,100,101,0,100" "0,100" "0,200")).
  reflexivity.
Defined.

(** X14: replacing a prefix and then replacing it back restores the string:
    the ancestors chain of a child survives its parent being moved away and
    back. *)
Theorem X14_replace_first_round_trip old_str new_str rest :
  DeptService.replace_first
    (DeptService.replace_first (old_str ++ rest) old_str new_str) new_str old_str
  = old_str ++ rest.
Proof.
  now rewrite !DeptServiceFacts.replace_first_prefix.
Qed.

(** X15: [update_dept_children] rewrites chains and nothing else.  It calls
    the DAO only when there are children; the updates name the same
    departments in the same order; and a child whose chain continues the old
    chain of the moved department gets the new chain followed by the same
    continuation, so that afterwards its ancestors are those of the new
    chain together with the ones it had below the old chain. *)
Theorem X15_children_follow_the_move children new_ancestors old_ancestors :
  (DeptService.update_dept_children children new_ancestors old_ancestors = None
   <-> children = [])
  /\ forall updates,
       DeptService.update_dept_children children new_ancestors old_ancestors
       = Some updates ->
       map DeptService.child_dept_id updates = map DeptService.child_dept_id children
       /\ forall c tail,
            In c children ->
            DeptService.child_ancestors c = old_ancestors ++ "," ++ tail ->
            In (DeptService.mkChild (DeptService.child_dept_id c)
                                    (new_ancestors ++ "," ++ tail)) updates
            /\ forall d, Db.find_in_set d (new_ancestors ++ "," ++ tail)
                         = Db.find_in_set d new_ancestors || Db.find_in_set d tail.
Proof.
  unfold DeptService.update_dept_children. split.
  - destruct children; split; congruence.
  - intros updates H.
    assert (Hu : updates
                 = map (fun c => DeptService.mkChild
                                   (DeptService.child_dept_id c)
                                   (DeptService.replace_first
                                      (DeptService.child_ancestors c)
                                      old_ancestors new_ancestors)) children).
    { destruct children; [discriminate | now inversion H]. }
    clear H. subst updates. split.
    + rewrite map_map. reflexivity.
    + intros c tail Hin Hc. split.
      * apply in_map_iff. exists c. split; [|exact Hin].
        now rewrite Hc, DeptServiceFacts.replace_first_prefix.
      * intros d. apply DeptServiceFacts.find_in_set_join.
Qed.

(** Department 101 moves from under 100 to under 200; its child 103 follows. *)
Lemma X15_children_follow_the_move_witness :
  DeptService.update_dept_children [DeptService.mkChild 103 "0,100,101"] "0,200" "0,100"
  = Some [DeptService.mkChild 103 "0,200,101"]
  /\ In (DeptService.mkChild 103 ("0,200" ++ "," ++ "101"))
        [DeptService.mkChild 103 "0,200,101"].
Proof.
  split; [reflexivity|].
  destruct (X15_children_follow_the_move [DeptService.mkChild 103 "0,100,101"]
              "0,200" "0,100") as [_ H].
  destruct (H [DeptService.mkChild 103 "0,200,101"] eq_refl) as [_ H'].
  apply (H' (DeptService.mkChild 103 "0,100,101") "101"); [now left | reflexivity].
Defined.

(** X16: [add_dept_services] commits only a well-placed department.  A
    commit means the name was unique, the parent row was found with the
    normal status and the write raised nothing; the stored ancestors chain
    is the parent's chain followed by the parent's identifier, so the
    parent and every ancestor of the parent are in it. *)
Theorem X16_added_department_chain DEPT_NORMAL is_unique parent_info write_error
        page_object stored :
  DeptService.add_dept_services DEPT_NORMAL is_unique parent_info write_error page_object
  = DeptService.Committed stored ->
  is_unique = true
  /\ write_error = None
  /\ exists parent,
       parent_info = Some parent
       /\ DeptService.parent_status parent = DEPT_NORMAL
       /\ DeptService.dept_name stored = DeptService.dept_name page_object
       /\ DeptService.parent_id stored = DeptService.parent_id page_object
       /\ DeptService.ancestors stored
          = Some (DeptService.parent_ancestors parent ++ ","
                  ++ DeptService.str_opt_int (DeptService.parent_id page_object))
       /\ forall p chain,
            DeptService.parent_id page_object = Some p ->
            DeptService.ancestors stored = Some chain ->
            Db.find_in_set p chain = true
            /\ forall d, Db.find_in_set d (DeptService.parent_ancestors parent) = true ->
                         Db.find_in_set d chain = true.
Proof.
  unfold DeptService.add_dept_services.
  destruct is_unique; simpl; [|discriminate].
  destruct parent_info as [parent|]; [|discriminate].
  destruct (DeptService.parent_status parent =? DEPT_NORMAL) eqn:Hs; simpl;
    [|discriminate].
  destruct write_error; [discriminate|].
  intros E. inversion E; subst; clear E. simpl.
  split; [reflexivity|]. split; [reflexivity|].
  exists parent. split; [reflexivity|].
  split; [now apply String.eqb_eq|].
  repeat (split; [reflexivity|]).
  intros p chain Hp Hc. rewrite Hp in Hc. simpl in Hc. inversion Hc; subst; clear Hc.
  split.
  - rewrite DeptServiceFacts.find_in_set_join_cons, DeptServiceFacts.find_in_set_self.
    apply orb_true_r.
  - intros d Hd. rewrite DeptServiceFacts.find_in_set_join_cons, Hd. reflexivity.
Qed.

(** A department named dev added under department 101, whose chain is
    [0,100]. *)
Lemma X16_added_department_chain_witness :
  DeptService.add_dept_services "0" true
    (Some (DeptService.mkParent "0" "east" "0,100")) None
    (DeptService.mkDeptModel "dev" (Some 101%Z) None)
  = DeptService.Committed (DeptService.mkDeptModel "dev" (Some 101%Z) (Some "0,100,101"))
  /\ Db.find_in_set 101 "0,100,101" = true.
Proof.
  assert (E : DeptService.add_dept_services "0" true
                (Some (DeptService.mkParent "0" "east" "0,100")) None
                (DeptService.mkDeptModel "dev" (Some 101%Z) None)
              = DeptService.Committed
                  (DeptService.mkDeptModel "dev" (Some 101%Z) (Some "0,100,101")))
    by reflexivity.
  split; [exact E|].
  destruct (X16_added_department_chain _ _ _ _ _ _ E) as [_ [_ [parent [_ [_ [_ [_ [_ H]]]]]]]].
  exact (proj1 (H 101%Z "0,100,101" eq_refl eq_refl)).
Defined.

(** X17: a department added under a parent is at once inside the
    DEPT_AND_CHILD scope of the parent's department and of every department
    above it.  Once the committed row is a department record, the operand of
    a DEPT_AND_CHILD role of a user whose department is the parent, or is in
    the parent's ancestors chain, lets the rows of the new department
    through. *)
Theorem X17_added_department_is_in_scope DEPT_NORMAL parent write_error page_object
        stored p chain new_id self cu r e db row :
  DeptService.add_dept_services DEPT_NORMAL true (Some parent) write_error page_object
  = DeptService.Committed stored ->
  DeptService.parent_id page_object = Some p ->
  DeptService.ancestors stored = Some chain ->
  In (Db.mkDept new_id chain) (Db.sys_dept db) ->
  data_scope r = DATA_SCOPE_DEPT_AND_CHILD ->
  dept_id (user cu) = p
  \/ Db.find_in_set (dept_id (user cu)) (DeptService.parent_ancestors parent) = true ->
  hasattr e (dept_alias self) = true ->
  row (dept_alias self) = Some new_id ->
  lets_through e db (role_operand self cu r) row = true.
Proof.
  intros Hadd Hp Hchain Hrow Hr Hd He Hv.
  assert (Hc : chain = DeptService.parent_ancestors parent ++ "," ++ Py.str_int p).
  { unfold DeptService.add_dept_services in Hadd. simpl in Hadd.
    destruct (DeptService.parent_status parent =? DEPT_NORMAL); simpl in Hadd;
      [|discriminate].
    destruct write_error; [discriminate|].
    inversion Hadd; subst; clear Hadd. simpl in Hchain. rewrite Hp in Hchain.
    simpl in Hchain. now inversion Hchain. }
  unfold role_operand. rewrite Hr. simpl.
  apply lets_through_guarded. split; [exact He|].
  exists new_id. split; [exact Hv|]. simpl.
  apply existsb_Zeqb, in_subtree.
  exists (Db.mkDept new_id chain). split; [exact Hrow|]. split; [reflexivity|].
  right. simpl. apply find_in_set_spec. subst chain.
  rewrite DeptServiceFacts.find_in_set_join.
  destruct Hd as [Hd | Hd].
  - rewrite Hd, DeptServiceFacts.find_in_set_self. apply orb_true_r.
  - now rewrite Hd.
Qed.

(** A user of department 100 sees the department just added under 101. *)
Lemma X17_added_department_is_in_scope_witness :
  DeptService.add_dept_services "0" true
    (Some (DeptService.mkParent "0" "east" "0,100")) None
    (DeptService.mkDeptModel "dev" (Some 101%Z) None)
  = DeptService.Committed (DeptService.mkDeptModel "dev" (Some 101%Z) (Some "0,100,101"))
  /\ lets_through SysUser (Db.mk [] [Db.mkDept 103 "0,100,101"])
       (role_operand for_SysUser (mkCurrent (mkUser 9 100 false [mkRole 40 "4"]))
                     (mkRole 40 "4"))
       (row_of [("dept_id", 103%Z)]) = true.
Proof.
  split; [reflexivity|].
  apply (X17_added_department_is_in_scope "0"
           (DeptService.mkParent "0" "east" "0,100") None
           (DeptService.mkDeptModel "dev" (Some 101%Z) None)
           (DeptService.mkDeptModel "dev" (Some 101%Z) (Some "0,100,101"))
           101%Z "0,100,101" 103%Z for_SysUser
           (mkCurrent (mkUser 9 100 false [mkRole 40 "4"])) (mkRole 40 "4")
           SysUser (Db.mk [] [Db.mkDept 103 "0,100,101"])
           (row_of [("dept_id", 103%Z)]));
    try reflexivity.
  - simpl. auto.
  - right. reflexivity.
Defined.

(** ** The tree of departments *)

Module TreeFacts.
Import DeptService.

Lemma set_nth_length {A} j (v : A) l : List.length (set_nth j v l) = List.length l.
Proof.
  revert j. induction l as [|x l IH]; intros [|j]; simpl; auto.
Qed.

Lemma nth_set_nth_same {A} j (v d : A) l :
  j < List.length l -> nth j (set_nth j v l) d = v.
Proof.
  revert j. induction l as [|x l IH]; intros [|j] H; simpl in *; try lia; auto.
  apply IH. lia.
Qed.

Lemma nth_set_nth_other {A} i j (v d : A) l :
  i <> j -> nth i (set_nth j v l) d = nth i l d.
Proof.
  revert i j. induction l as [|x l IH]; intros [|i] [|j] H; simpl; auto; try congruence.
Qed.

Lemma concat_set_nth_snoc j (x : nat) (ch : list (list nat)) :
  j < List.length ch ->
  Permutation (concat (set_nth j (nth j ch [] ++ [x])%list ch)) (x :: concat ch).
Proof.
  revert j. induction ch as [|c ch IH]; intros [|j] H; simpl in *; try lia.
  - rewrite <- app_assoc. simpl. symmetry. apply Permutation_middle.
  - assert (Hj : j < List.length ch) by lia.
    specialize (IH j Hj).
    transitivity (c ++ x :: concat ch)%list.
    + apply Permutation_app_head, IH.
    + symmetry. apply Permutation_middle.
Qed.

(** [mapping.get] finds a position of the list, that of an item with the
    key as its id. *)
Lemma last_with_id_found key items : forall pos found j,
  last_with_id key items pos found = Some j ->
  found = Some j
  \/ (pos <= j < pos + List.length items
      /\ exists it, nth_error items (j - pos) = Some it /\ id it = key).
Proof.
  induction items as [|x items IH]; intros pos found j H; simpl in H.
  - now left.
  - apply IH in H. destruct H as [H | [Hj [it [Hit Hid]]]].
    + destruct (id x =? key)%Z eqn:E.
      * right. inversion H; subst. simpl. split; [lia|].
        exists x. rewrite Nat.sub_diag. split; [reflexivity | now apply Z.eqb_eq].
      * now left.
    + right. simpl. split; [lia|]. exists it. split; [|exact Hid].
      replace (j - pos) with (S (j - S pos)) by lia. exact Hit.
Qed.

Lemma last_with_id_none key items : forall pos found,
  last_with_id key items pos found = None <->
  found = None /\ forall it, In it items -> id it <> key.
Proof.
  induction items as [|x items IH]; intros pos found; simpl.
  - split; [intros ->; split; [reflexivity | intros it []] | intros [H _]; exact H].
  - rewrite IH. destruct (id x =? key)%Z eqn:E.
    + split; [intros [H _]; discriminate|].
      intros [_ H]. apply Z.eqb_eq in E. destruct (H x (or_introl eq_refl) E).
    + apply Z.eqb_neq in E. split.
      * intros [Hf H]. split; [exact Hf|]. intros it [<- | Hin]; auto.
      * intros [Hf H]. split; [exact Hf|]. intros it Hin. apply H. now right.
Qed.

Lemma mapping_get_bound items key j :
  mapping_get items key = Some j -> j < List.length items.
Proof.
  destruct key as [k|]; simpl; [|discriminate].
  intros H. apply last_with_id_found in H as [H | [H _]]; [discriminate | lia].
Qed.

Lemma place_keeps items st pos d :
  placed_upto items pos st -> placed_upto items (S pos) (place items st pos d).
Proof.
  intros [Hlen Hperm]. unfold place.
  destruct (mapping_get items (parentId d)) as [j|] eqn:Hget;
    unfold placed_upto; cbn [container children]; rewrite seq_S; cbn [Nat.add].
  - apply mapping_get_bound in Hget.
    split; [now rewrite set_nth_length|].
    transitivity (container st ++ pos :: concat (children st))%list.
    + apply Permutation_app_head, concat_set_nth_snoc. lia.
    + transitivity (pos :: container st ++ concat (children st))%list.
      * symmetry. apply Permutation_middle.
      * transitivity (pos :: seq 0 pos); [now constructor|].
        apply Permutation_cons_append.
  - split; [exact Hlen|].
    rewrite <- app_assoc. cbn [app].
    transitivity (pos :: container st ++ concat (children st))%list.
    + symmetry. apply Permutation_middle.
    + transitivity (pos :: seq 0 pos); [now constructor|].
      apply Permutation_cons_append.
Qed.

Lemma place_all_keeps items todo : forall pos st,
  placed_upto items pos st ->
  placed_upto items (pos + List.length todo) (place_all items todo pos st).
Proof.
  induction todo as [|d todo IH]; intros pos st H; simpl.
  - now rewrite Nat.add_0_r.
  - replace (pos + S (List.length todo)) with (S pos + List.length todo) by lia.
    apply IH, place_keeps, H.
Qed.

End TreeFacts.

Module TreePlacement.
Import DeptService TreeFacts.

Lemma concat_repeat_nil n : concat (repeat (@nil nat) n) = [].
Proof. induction n; simpl; auto. Qed.

Lemma placed_upto_start items :
  placed_upto items 0 (mkStore [] (repeat [] (List.length items))).
Proof.
  split; simpl; [apply repeat_length | now rewrite concat_repeat_nil].
Qed.

Lemma place_all_length items todo : forall pos st,
  List.length (children (place_all items todo pos st)) = List.length (children st).
Proof.
  induction todo as [|d todo IH]; intros pos st; simpl; [reflexivity|].
  rewrite IH. unfold place.
  destruct (mapping_get items (parentId d)); simpl;
    [apply set_nth_length | reflexivity].
Qed.

(** Where the dicts of [todo] end up: in the container when [mapping.get]
    finds no parent, else in the [children] of the parent found. *)
Lemma place_all_container items todo : forall pos st p,
  In p (container (place_all items todo pos st)) <->
  In p (container st)
  \/ exists i d, nth_error todo i = Some d /\ p = pos + i
                 /\ mapping_get items (parentId d) = None.
Proof.
  induction todo as [|d todo IH]; intros pos st p; simpl.
  - split; [auto | intros [H | [i [d [H _]]]]; [exact H | now destruct i]].
  - rewrite IH. unfold place.
    destruct (mapping_get items (parentId d)) as [j|] eqn:Hget; simpl; split.
    + intros [H | [i [d' [Hn [Hp Hg]]]]]; [now left|].
      right. exists (S i), d'. split; [exact Hn|]. split; [lia | exact Hg].
    + intros [H | [[|i] [d' [Hn [Hp Hg]]]]]; [now left | |].
      * simpl in Hn. inversion Hn; subst. congruence.
      * right. exists i, d'. split; [exact Hn|]. split; [lia | exact Hg].
    + rewrite in_app_iff. simpl.
      intros [[H | [H | []]] | [i [d' [Hn [Hp Hg]]]]].
      * now left.
      * right. exists 0, d. split; [reflexivity|]. split; [lia | exact Hget].
      * right. exists (S i), d'. split; [exact Hn|]. split; [lia | exact Hg].
    + rewrite in_app_iff. simpl.
      intros [H | [[|i] [d' [Hn [Hp Hg]]]]].
      * left. now left.
      * left. right. left. lia.
      * right. exists i, d'. split; [exact Hn|]. split; [lia | exact Hg].
Qed.

Lemma place_all_children items todo : forall pos st p j,
  List.length (children st) = List.length items ->
  In p (nth j (children (place_all items todo pos st)) []) <->
  In p (nth j (children st) [])
  \/ exists i d, nth_error todo i = Some d /\ p = pos + i
                 /\ mapping_get items (parentId d) = Some j.
Proof.
  induction todo as [|d todo IH]; intros pos st p j Hlen; simpl.
  - split; [auto | intros [H | [i [d [H _]]]]; [exact H | now destruct i]].
  - assert (Hlen' : List.length (children (place items st pos d)) = List.length items).
    { unfold place. destruct (mapping_get items (parentId d)); simpl;
        [now rewrite set_nth_length | exact Hlen]. }
    rewrite (IH (S pos) (place items st pos d) p j Hlen'). unfold place.
    destruct (mapping_get items (parentId d)) as [j0|] eqn:Hget; simpl.
    + pose proof (mapping_get_bound _ _ _ Hget) as Hb.
      destruct (Nat.eq_dec j j0) as [-> | Hne].
      * rewrite nth_set_nth_same by lia. rewrite in_app_iff. simpl. split.
        -- intros [[H | [H | []]] | [i [d' [Hn [Hp Hg]]]]].
           ++ now left.
           ++ right. exists 0, d. split; [reflexivity|]. split; [lia | exact Hget].
           ++ right. exists (S i), d'. split; [exact Hn|]. split; [lia | exact Hg].
        -- intros [H | [[|i] [d' [Hn [Hp Hg]]]]].
           ++ left. now left.
           ++ left. right. left. lia.
           ++ right. exists i, d'. split; [exact Hn|]. split; [lia | exact Hg].
      * rewrite nth_set_nth_other by exact Hne. split.
        -- intros [H | [i [d' [Hn [Hp Hg]]]]]; [now left|].
           right. exists (S i), d'. split; [exact Hn|]. split; [lia | exact Hg].
        -- intros [H | [[|i] [d' [Hn [Hp Hg]]]]]; [now left | |].
           ++ simpl in Hn. inversion Hn; subst. congruence.
           ++ right. exists i, d'. split; [exact Hn|]. split; [lia | exact Hg].
    + split.
      * intros [H | [i [d' [Hn [Hp Hg]]]]]; [now left|].
        right. exists (S i), d'. split; [exact Hn|]. split; [lia | exact Hg].
      * intros [H | [[|i] [d' [Hn [Hp Hg]]]]]; [now left | |].
        -- simpl in Hn. inversion Hn; subst. congruence.
        -- right. exists i, d'. split; [exact Hn|]. split; [lia | exact Hg].
Qed.

Lemma nth_repeat_nil j n : nth j (repeat (@nil nat) n) [] = [].
Proof.
  revert j. induction n; intros [|j]; simpl; auto.
Qed.

Lemma list_to_tree_container items p :
  In p (container (list_to_tree items)) <->
  exists d, nth_error items p = Some d /\ mapping_get items (parentId d) = None.
Proof.
  unfold list_to_tree. rewrite place_all_container. simpl. split.
  - intros [[] | [i [d [Hn [-> Hg]]]]]. exists d. auto.
  - intros [d [Hn Hg]]. right. exists p, d. auto.
Qed.

Lemma list_to_tree_children items p j :
  In p (nth j (children (list_to_tree items)) []) <->
  exists d, nth_error items p = Some d /\ mapping_get items (parentId d) = Some j.
Proof.
  unfold list_to_tree. rewrite place_all_children by (simpl; apply repeat_length).
  simpl. rewrite nth_repeat_nil. split.
  - intros [[] | [i [d [Hn [-> Hg]]]]]. exists d. auto.
  - intros [d [Hn Hg]]. right. exists p, d. auto.
Qed.

(** [mapping.get(k)] is the last position whose dict has id [k]. *)
Lemma last_with_id_is_last key items : forall pos found j,
  last_with_id key items pos found = Some j ->
  (found = Some j /\ forall it, In it items -> id it <> key)
  \/ (pos <= j
      /\ exists it, nth_error items (j - pos) = Some it /\ id it = key
                    /\ forall i' it', j - pos < i' -> nth_error items i' = Some it' ->
                                      id it' <> key).
Proof.
  induction items as [|x items IH]; intros pos found j H; simpl in H.
  - left. split; [exact H | intros it []].
  - apply IH in H. destruct H as [[Hf Hno] | [Hle [it [Hit [Hid Hlast]]]]].
    + destruct (id x =? key)%Z eqn:E.
      * right. inversion Hf; subst. split; [lia|]. exists x.
        rewrite Nat.sub_diag. split; [reflexivity|]. split; [now apply Z.eqb_eq|].
        intros [|i'] it' Hi Hn; [lia|]. simpl in Hn.
        apply Hno. eapply nth_error_In, Hn.
      * left. split; [exact Hf|]. apply Z.eqb_neq in E.
        intros it [<- | Hin]; auto.
    + right. split; [lia|]. exists it.
      replace (j - pos) with (S (j - S pos)) by lia.
      split; [exact Hit|]. split; [exact Hid|].
      intros [|i'] it' Hi Hn; [lia|]. simpl in Hn.
      apply (Hlast i' it'); [lia | exact Hn].
Qed.

Lemma mapping_get_some items k j :
  mapping_get items (Some k) = Some j <->
  exists it, nth_error items j = Some it /\ id it = k
             /\ forall j' it', j < j' -> nth_error items j' = Some it' -> id it' <> k.
Proof.
  simpl. split.
  - intros H. apply last_with_id_is_last in H as [[H _] | [_ H]]; [discriminate|].
    now rewrite Nat.sub_0_r in H.
  - intros [it [Hit [Hid Hlast]]].
    destruct (last_with_id k items 0 None) as [j0|] eqn:E.
    + pose proof E as E'.
      apply last_with_id_is_last in E' as [[H _] | [_ [it0 [Hit0 [Hid0 Hlast0]]]]];
        [discriminate|].
      rewrite Nat.sub_0_r in *.
      destruct (Nat.lt_trichotomy j j0) as [Hlt | [-> | Hgt]].
      * destruct (Hlast j0 it0 Hlt Hit0 Hid0).
      * reflexivity.
      * destruct (Hlast0 j it Hgt Hit Hid).
    + apply last_with_id_none in E as [_ Hno].
      destruct (Hno it (nth_error_In _ _ Hit) Hid).
Qed.

End TreePlacement.

(** X18: [list_to_tree] places every row exactly once.  The positions in
    the container and in all the [children] lists together are the
    positions of the input, each occurring once: no row is dropped from the
    store and none is attached in two places. *)
Theorem X18_every_row_is_placed_once permission_list :
  let st := DeptService.list_to_tree permission_list in
  List.length (DeptService.children st) = List.length permission_list
  /\ Permutation (DeptService.container st ++ concat (DeptService.children st))
                 (seq 0 (List.length permission_list)).
Proof.
  exact (TreeFacts.place_all_keeps permission_list permission_list 0 _
           (TreePlacement.placed_upto_start permission_list)).
Qed.

(** X19: the roots are the rows whose parent is not in the list.  A row is
    put in the container exactly when its [parentId] is [None] or is the id
    of no row of the list, so a department whose parent was filtered out
    heads a tree of its own, and a row naming any listed row, itself
    included, as parent is never a root. *)
Theorem X19_roots_have_no_listed_parent permission_list pos :
  In pos (DeptService.container (DeptService.list_to_tree permission_list))
  <-> exists d, nth_error permission_list pos = Some d
                /\ (DeptService.parentId d = None
                    \/ exists k, DeptService.parentId d = Some k
                                 /\ forall it, In it permission_list ->
                                               DeptService.id it <> k).
Proof.
  rewrite TreePlacement.list_to_tree_container. split.
  - intros [d [Hn Hg]]. exists d. split; [exact Hn|].
    destruct (DeptService.parentId d) as [k|]; [|now left].
    right. exists k. split; [reflexivity|].
    simpl in Hg. now apply TreeFacts.last_with_id_none in Hg as [_ Hg].
  - intros [d [Hn [Hp | [k [Hp Hno]]]]]; exists d; (split; [exact Hn|]);
      rewrite Hp; [reflexivity|].
    simpl. apply TreeFacts.last_with_id_none. auto.
Qed.

(** X20: a row is a child of the last row carrying its [parentId].  The
    position of a row is in the [children] list of position [parent]
    exactly when the row at [parent] has the row's [parentId] as its id and
    no later row has that id. *)
Theorem X20_children_hang_under_the_last_match permission_list pos parent :
  In pos (nth parent (DeptService.children (DeptService.list_to_tree permission_list)) [])
  <-> exists d k,
        nth_error permission_list pos = Some d
        /\ DeptService.parentId d = Some k
        /\ exists it, nth_error permission_list parent = Some it
                      /\ DeptService.id it = k
                      /\ forall later it', parent < later ->
                                           nth_error permission_list later = Some it' ->
                                           DeptService.id it' <> k.
Proof.
  rewrite TreePlacement.list_to_tree_children. split.
  - intros [d [Hn Hg]]. destruct (DeptService.parentId d) as [k|] eqn:Hp;
      [|discriminate].
    exists d, k. split; [exact Hn|]. split; [exact Hp|].
    now apply TreePlacement.mapping_get_some.
  - intros [d [k [Hn [Hp H]]]]. exists d. split; [exact Hn|].
    rewrite Hp. now apply TreePlacement.mapping_get_some.
Qed.

(** X21: a row that names itself as parent drops out of the tree.  With
    pairwise distinct ids, a row whose [parentId] is its own id becomes its
    own child and is not a root, so nothing reachable from the container
    leads to it. *)
Theorem X21_self_parent_is_its_own_child permission_list pos d :
  NoDup (map DeptService.id permission_list) ->
  nth_error permission_list pos = Some d ->
  DeptService.parentId d = Some (DeptService.id d) ->
  In pos (nth pos (DeptService.children (DeptService.list_to_tree permission_list)) [])
  /\ ~ In pos (DeptService.container (DeptService.list_to_tree permission_list)).
Proof.
  intros Hnd Hn Hp. split.
  - apply TreePlacement.list_to_tree_children. exists d. split; [exact Hn|].
    rewrite Hp. apply TreePlacement.mapping_get_some.
    exists d. split; [exact Hn|]. split; [reflexivity|].
    intros later it' Hlt Hn' Hid.
    assert (Hpos : pos < List.length (map DeptService.id permission_list)).
    { rewrite length_map. apply nth_error_Some. congruence. }
    assert (E : nth_error (map DeptService.id permission_list) pos
                = nth_error (map DeptService.id permission_list) later).
    { rewrite !nth_error_map, Hn, Hn'. simpl. now rewrite Hid. }
    pose proof (proj1 (NoDup_nth_error _) Hnd pos later Hpos E). lia.
  - intros Hroot. apply TreePlacement.list_to_tree_container in Hroot as [d' [Hn' Hg]].
    rewrite Hn in Hn'. inversion Hn'; subst d'. rewrite Hp in Hg.
    simpl in Hg. apply TreeFacts.last_with_id_none in Hg as [_ Hno].
    exact (Hno d (nth_error_In _ _ Hn) eq_refl).
Qed.

(** Department 200 of the sample names itself as parent. *)
Lemma X21_self_parent_is_its_own_child_witness :
  NoDup (map DeptService.id sample_items)
  /\ DeptService.list_to_tree sample_items
     = DeptService.mkStore [0] [[1; 3]; [2]; []; []; [4]]
  /\ In 4 (nth 4 (DeptService.children (DeptService.list_to_tree sample_items)) []).
Proof.
  assert (Hnd : NoDup (map DeptService.id sample_items)).
  { simpl. repeat constructor; simpl; intuition discriminate. }
  split; [exact Hnd|]. split; [reflexivity|].
  apply (X21_self_parent_is_its_own_child sample_items 4
           (DeptService.mkItem 200 "loop" (Some 200%Z)) Hnd eq_refl eq_refl).
Defined.

(** The nested value returned for the sample: the department that is its own
    parent is not in it. *)
Example nested_sample :
  DeptService.nested sample_items
  = [DeptService.Node (DeptService.mkItem 100 "root" (Some 0%Z))
       [DeptService.Node (DeptService.mkItem 101 "east" (Some 100%Z))
          [DeptService.Node (DeptService.mkItem 103 "dev" (Some 101%Z)) []];
        DeptService.Node (DeptService.mkItem 102 "west" (Some 100%Z)) []]].
Proof. reflexivity. Qed.

(** ** The returned text as a call *)

Module PyEvalFacts.
Import PyEval.

Lemma append_snoc cur c rest : (cur ++ String c "") ++ rest = cur ++ String c rest.
Proof. now rewrite append_assoc. Qed.

(** A stretch of text without a separating comma is read into the current
    argument. *)
Lemma arguments_scan s : forall d q cur t d' q',
  scan d q s = Some (d', q') ->
  arguments_from d q cur (s ++ t) = arguments_from d' q' (cur ++ s) t.
Proof.
  induction s as [|c s IH]; intros d q cur t d' q' H.
  - simpl in H. inversion H; subst. now rewrite DeptServiceFacts.append_nil_r.
  - rewrite <- append_snoc. cbn [append arguments_from]. cbn [scan] in H.
    destruct q; [now apply IH|].
    destruct (Ascii.eqb c "'"); [now apply IH|].
    destruct (is_open c); [now apply IH|].
    destruct (is_close c); [now apply IH|].
    destruct (Ascii.eqb c "," && Nat.eqb d 0); [discriminate | now apply IH].
Qed.

Lemma scan_app a : forall d q b,
  scan d q (a ++ b)
  = match scan d q a with
    | Some (d', q') => scan d' q' b
    | None => None
    end.
Proof.
  induction a as [|c a IH]; intros d q b; [reflexivity|].
  cbn [append scan].
  destruct q; [apply IH|].
  destruct (Ascii.eqb c "'"); [apply IH|].
  destruct (is_open c); [apply IH|].
  destruct (is_close c); [apply IH|].
  destruct (Ascii.eqb c "," && Nat.eqb d 0); [reflexivity | apply IH].
Qed.

Lemma scan_inert s : forall d q,
  all_chars inert_char s = true -> scan d q s = Some (d, q).
Proof.
  induction s as [|c s IH]; intros d q H; [reflexivity|].
  cbn [all_chars] in H. apply andb_true_iff in H as [Hc Hs].
  unfold inert_char in Hc. apply negb_true_iff in Hc.
  repeat (apply orb_false_iff in Hc as [Hc ?]).
  cbn [scan]. destruct q.
  - rewrite Hc. now apply IH.
  - rewrite Hc.
    repeat match goal with H : _ = false |- _ => rewrite H; clear H end.
    now apply IH.
Qed.

Lemma identifier_char_inert c : is_identifier_char c = true -> inert_char c = true.
Proof.
  destruct c as [[] [] [] [] [] [] [] []]; vm_compute; congruence.
Qed.

Lemma identifier_inert s : identifier s = true -> all_chars inert_char s = true.
Proof.
  unfold identifier. induction s as [|c s IH]; [reflexivity|].
  cbn [all_chars]. intros H. apply andb_true_iff in H as [Hc Hs].
  now rewrite (identifier_char_inert c Hc), IH.
Qed.

Lemma identifier_first s rest :
  identifier s = true ->
  exists c t, s ++ String "."%char rest = String c t /\ Ascii.eqb c " " = false.
Proof.
  destruct s as [|c s]; intros H.
  - exists "."%char, rest. split; reflexivity.
  - exists c, (s ++ String "."%char rest). split; [reflexivity|].
    unfold identifier in H. cbn [all_chars] in H.
    apply andb_true_iff in H as [Hc _]. apply identifier_char_inert in Hc.
    unfold inert_char in Hc. apply negb_true_iff in Hc.
    now apply orb_false_iff in Hc as [_ Hc].
Qed.

Lemma uint_inert u : all_chars inert_char (NilEmpty.string_of_uint u) = true.
Proof.
  induction u; cbn [NilEmpty.string_of_uint all_chars]; [reflexivity|..];
    rewrite IHu; reflexivity.
Qed.

Lemma str_int_inert z : all_chars inert_char (Py.str_int z) = true.
Proof.
  unfold Py.str_int, NilEmpty.string_of_int.
  destruct (Z.to_int z) as [u | u].
  - apply uint_inert.
  - cbn [all_chars]. now rewrite uint_inert.
Qed.

Lemma scan_str_int z d q : scan d q (Py.str_int z) = Some (d, q).
Proof. apply scan_inert, str_int_inert. Qed.

Lemma scan_alias a d q : identifier a = true -> scan d q a = Some (d, q).
Proof. intros H. apply scan_inert, identifier_inert, H. Qed.

Lemma scan_joined_ints l : forall d,
  scan (S d) false (Py.join ", " (map Py.str_int l)) = Some (S d, false).
Proof.
  unfold Py.join. induction l as [|x l IH]; intros d; [reflexivity|].
  destruct l as [|y l].
  - simpl. apply scan_str_int.
  - change (String.concat ", " (map Py.str_int (x :: y :: l)))
      with (Py.str_int x ++ ", " ++ String.concat ", " (map Py.str_int (y :: l))).
    rewrite scan_app, scan_str_int. cbn [append scan].
    exact (IH d).
Qed.

Lemma scan_repr_int_list l d :
  scan d false (Py.repr_int_list l) = Some (d, false).
Proof.
  unfold Py.repr_int_list. cbn [append scan].
  change (is_open "[") with true. cbv iota.
  change (Ascii.eqb "[" "'") with false. cbv iota.
  now rewrite scan_app, scan_joined_ints.
Qed.
End PyEvalFacts.

Module PyCallFacts.
Import PyEval PyEvalFacts.

(** Every column test closes the brackets it opens. *)
Lemma scan_condition c d : scan d false (render_condition c) = Some (d, false).
Proof.
  destruct c as [v | rid | rids | v]; cbn [render_condition].
  - change (" == " ++ Py.str_int v) with (String " " (String "=" (String "=" (String " " (Py.str_int v))))).
    cbn [scan]. apply scan_str_int.
  - rewrite scan_app.
    replace (scan d false ".in_(select(SysRoleDept.dept_id).where(SysRoleDept.role_id == ")
      with (Some (S (S d), false)) by reflexivity.
    rewrite scan_app, scan_str_int. reflexivity.
  - rewrite scan_app.
    replace (scan d false ".in_(select(SysRoleDept.dept_id).where(SysRoleDept.role_id.in_(")
      with (Some (S (S (S d)), false)) by reflexivity.
    rewrite scan_app, scan_repr_int_list. reflexivity.
  - rewrite scan_app.
    replace (scan d false ".in_(select(SysDept.dept_id).where(or_(SysDept.dept_id == ")
      with (Some (S (S (S d)), false)) by reflexivity.
    rewrite scan_app, scan_str_int, scan_app.
    replace (scan (S (S (S d))) false ", func.find_in_set(")
      with (Some (S (S (S (S d))), false)) by reflexivity.
    rewrite scan_app, scan_str_int. reflexivity.
Qed.

(** A guarded operand over names is one whole argument. *)
Lemma guarded_one_argument self col c :
  identifier (query_alias self) = true ->
  identifier col = true ->
  one_argument (render self (Guarded col c)).
Proof.
  intros Hq Hc. split.
  - cbn [render].
    rewrite scan_app, (scan_alias _ 0 false Hq).
    change ("." ++ col ++ render_condition c ++ " if hasattr(" ++ query_alias self
            ++ ", '" ++ col ++ "') else 1 == 0")
      with (String "."%char (col ++ render_condition c ++ " if hasattr("
                             ++ query_alias self ++ ", '" ++ col ++ "') else 1 == 0")).
    cbn [scan]. change (Ascii.eqb "." "'") with false. cbv iota.
    change (is_open ".") with false. change (is_close ".") with false.
    change (Ascii.eqb "." ",") with false. cbv iota. cbn [andb].
    rewrite scan_app, (scan_alias _ 0 false Hc).
    rewrite scan_app, scan_condition.
    rewrite scan_app.
    replace (scan 0 false " if hasattr(") with (Some (1, false)) by reflexivity.
    rewrite scan_app, (scan_alias _ 1 false Hq).
    rewrite scan_app.
    replace (scan 1 false ", '") with (Some (1, true)) by reflexivity.
    rewrite scan_app, (scan_alias _ 1 true Hc).
    reflexivity.
  - cbn [render].
    change (query_alias self ++ "." ++ col ++ render_condition c ++ " if hasattr("
            ++ query_alias self ++ ", '" ++ col ++ "') else 1 == 0")
      with (query_alias self
            ++ String "."%char (col ++ render_condition c ++ " if hasattr("
                                ++ query_alias self ++ ", '" ++ col ++ "') else 1 == 0")).
    now apply identifier_first.
Qed.

Lemma template_one_argument self cu op :
  aliases_are_names self = true ->
  is_template self cu op ->
  one_argument (render self op).
Proof.
  unfold aliases_are_names. intros H.
  apply andb_true_iff in H as [H Hu]. apply andb_true_iff in H as [Hq Hd].
  intros [ | | rid | | | | ];
    try (now apply guarded_one_argument);
    (split; [reflexivity | eexists; eexists; split; reflexivity]).
Qed.

(** The arguments of a list joined by [', '] are its members, when each is
    one whole argument. *)
Lemma arguments_from_join ops : forall op cur,
  Forall one_argument (op :: ops) ->
  arguments_from 0 false cur (Py.join ", " (op :: ops))
  = (cur ++ op) :: map (fun a => " " ++ a) ops.
Proof.
  unfold Py.join. induction ops as [|op2 ops IH]; intros op cur Hall.
  - inversion Hall as [|? ? [Hs _] _]; subst. cbn [String.concat map].
    rewrite <- (DeptServiceFacts.append_nil_r op) at 1.
    now rewrite (arguments_scan op 0 false cur "" 0 false Hs).
  - inversion Hall as [|? ? [Hs _] Hrest]; subst.
    change (String.concat ", " (op :: op2 :: ops))
      with (op ++ ", " ++ String.concat ", " (op2 :: ops)).
    rewrite (arguments_scan op 0 false cur _ 0 false Hs).
    change (", " ++ String.concat ", " (op2 :: ops))
      with (String ","%char (String " "%char (String.concat ", " (op2 :: ops)))).
    cbn [arguments_from]. change (Ascii.eqb "," "'") with false. cbv iota.
    change (is_open ",") with false. change (is_close ",") with false. cbv iota.
    change (Ascii.eqb "," "," && Nat.eqb 0 0) with true. cbv iota.
    change (Ascii.eqb " " "'") with false. cbv iota.
    change (is_open " ") with false. change (is_close " ") with false. cbv iota.
    change (Ascii.eqb " " "," && Nat.eqb 0 0) with false. cbv iota.
    rewrite (IH op2 ("" ++ " ") Hrest). reflexivity.
Qed.

Lemma lstrip_one_argument a : one_argument a -> lstrip a = a /\ lstrip (" " ++ a) = a.
Proof.
  intros [_ [c [rest [-> Hc]]]]. cbn [append lstrip].
  change (Ascii.eqb " " " ") with true. cbv iota. cbn [lstrip].
  now rewrite Hc.
Qed.

Lemma arguments_join ops :
  Forall one_argument ops -> arguments (Py.join ", " ops) = ops.
Proof.
  destruct ops as [|op ops]; intros Hall; [reflexivity|].
  assert (Hne : exists c rest, Py.join ", " (op :: ops) = String c rest).
  { inversion Hall as [|? ? [_ [c [rest [-> _]]]] _]; subst.
    unfold Py.join. destruct ops; cbn [String.concat append]; eauto. }
  destruct Hne as [c [rest Hne]]. unfold arguments. rewrite Hne, <- Hne.
  rewrite (arguments_from_join ops op "" Hall). cbn [map append].
  inversion Hall as [|? ? Hop Hrest]; subst.
  rewrite (proj1 (lstrip_one_argument op Hop)). f_equal.
  clear Hall Hne Hop. induction Hrest as [|a l Ha _ IH]; [reflexivity|].
  cbn [map]. rewrite IH. f_equal. exact (proj2 (lstrip_one_argument a Ha)).
Qed.

Lemma drop_last_paren_app body : drop_last_paren (body ++ ")") = Some body.
Proof.
  induction body as [|c body IH]; [reflexivity|].
  cbn [append]. destruct (body ++ ")") as [|c' r] eqn:E;
    [destruct body; discriminate|].
  change (drop_last_paren (String c (String c' r)))
    with (match drop_last_paren (String c' r) with
          | Some b => Some (String c b)
          | None => None
          end).
  now rewrite IH.
Qed.

Lemma parse_call_or body :
  parse_call ("or_(" ++ body ++ ")") = Some ("or_", arguments body).
Proof.
  unfold parse_call.
  change (split_at_paren "" ("or_(" ++ body ++ ")")) with (Some ("or_", body ++ ")")).
  cbv iota beta. now rewrite drop_last_paren_app.
Qed.

(** The operands retained for a user are whole arguments. *)
Lemma param_sql_list_arguments self cu :
  aliases_are_names self = true ->
  Forall one_argument (param_sql_list self cu).
Proof.
  intros Hn. apply Forall_forall. intros s Hs.
  unfold param_sql_list in Hs. apply (proj1 (fromkeys_In _ _)) in Hs.
  rewrite collected_operands in Hs. apply in_map_iff in Hs as [op [<- Hop]].
  apply (template_one_argument self cu op Hn).
  unfold operands in Hop. destruct (short_circuits cu).
  - destruct Hop as [<- | []]. constructor.
  - apply in_map_iff in Hop as [r [<- _]]. apply role_operand_template.
Qed.

(** The text [__call__] returns spells the call of [or_] on the retained
    operands. *)
Lemma parse_call_call self cu :
  aliases_are_names self = true ->
  parse_call (call self cu) = Some ("or_", param_sql_list self cu).
Proof.
  intros Hn. unfold call. rewrite parse_call_or.
  now rewrite (arguments_join _ (param_sql_list_arguments self cu Hn)).
Qed.

End PyCallFacts.

(** ** The filter the DAO evaluates *)

(** C1: an administrator bypasses every scope check, whatever roles are
    held.  With at least one role [__call__] returns [or_(1 == 1)]; with no
    role at all the loop never runs and it returns [or_()], the OR of
    nothing, to which [where] adds no condition.  Either way the evaluated
    text lets every row through, as the universal-true predicate does. *)
Theorem C1_admin_bypass self cu reading row :
  admin (user cu) = true ->
  reading "1 == 1" row = true ->
  call self cu
  = match role (user cu) with
    | [] => "or_()"
    | _ :: _ => "or_(1 == 1)"
    end
  /\ PyEval.eval_where where_of_empty_or reading (call self cu) row = PyEval.Rows true
  /\ (forall e db, filter_admits where_of_empty_or e db self cu row = true).
Proof.
  intros Hadm Hread.
  destruct (role (user cu)) as [|r roles] eqn:Hroles.
  - assert (Hl : param_sql_list self cu = []).
    { unfold param_sql_list, collected. now rewrite Hroles. }
    assert (Hcall : call self cu = "or_()") by now rewrite (call_of_list _ _ _ Hl).
    split; [exact Hcall|]. split.
    + rewrite Hcall. reflexivity.
    + intros e db. unfold filter_admits, operands, short_circuits.
      rewrite Hroles. simpl. rewrite andb_false_r. reflexivity.
  - assert (Hsc : short_circuits cu = true).
    { unfold short_circuits. now rewrite Hadm, Hroles. }
    destruct (short_circuits_ops self cu Hsc) as [_ Hcall].
    split; [exact Hcall|]. split.
    + rewrite Hcall. unfold PyEval.eval_where.
      change (PyEval.parse_call "or_(1 == 1)") with (Some ("or_", ["1 == 1"])).
      cbv iota beta. change ("or_" =? "or_") with true. cbv iota.
      unfold or_admits. simpl. now rewrite Hread.
    + intros e db. unfold filter_admits, operands. rewrite Hsc. reflexivity.
Qed.

(** The administrator without roles, filtering [SysUser]. *)
Lemma C1_admin_bypass_witness :
  admin (user admin_without_roles) = true
  /\ reading_always "1 == 1" row_user_2_dept_8 = true
  /\ call for_SysUser admin_without_roles = "or_()"
  /\ PyEval.eval_where where_of_empty_or reading_always
       (call for_SysUser admin_without_roles) row_user_2_dept_8
     = PyEval.Rows true.
Proof.
  split; [reflexivity|]. split; [reflexivity|].
  destruct (C1_admin_bypass for_SysUser admin_without_roles reading_always
              row_user_2_dept_8 eq_refl eq_refl) as [Hcall [Heval _]].
  split; [exact Hcall | exact Heval].
Defined.

(** C3: for a plain user holding roles none of which has scope ALL, the
    text [__call__] returns is the call of [or_] on the per-role strings
    (repeats dropped), so that evaluated it lets a row through exactly when
    the string of some held role does: the conditions are ORed, and the most
    permissive one wins. *)
Theorem C3_or_of_roles self cu o reading row :
  aliases_are_names self = true ->
  admin (user cu) = false ->
  (forall r, In r (role (user cu)) -> data_scope r <> DATA_SCOPE_ALL) ->
  role (user cu) <> [] ->
  PyEval.parse_call (call self cu)
  = Some ("or_", Py.fromkeys (map (role_sql self cu) (role (user cu))))
  /\ exists admitted,
       PyEval.eval_where o reading (call self cu) row = PyEval.Rows admitted
       /\ (admitted = true
           <-> exists r, In r (role (user cu))
                         /\ reading (role_sql self cu r) row = true).
Proof.
  intros Hn Hadm Hall Hne.
  pose proof (PyCallFacts.parse_call_call self cu Hn) as Hparse.
  destruct (or_over_role_strings self cu o reading row Hadm Hall Hne) as [Hl Hor].
  split; [now rewrite Hparse, Hl|].
  exists (admits o reading self cu row). split; [|exact Hor].
  unfold PyEval.eval_where. rewrite Hparse.
  change ("or_" =? "or_") with true. reflexivity.
Qed.

(** With a DEPT and a SELF role, the row of the user's department owned by
    someone else and the user's own row in another department both pass. *)
Lemma C3_or_of_roles_witness :
  aliases_are_names for_SysUser = true
  /\ admin (user user_dept_self) = false
  /\ PyEval.eval_where false (sample_reading user_dept_self)
       (call for_SysUser user_dept_self) row_user_2_dept_5 = PyEval.Rows true
  /\ PyEval.eval_where false (sample_reading user_dept_self)
       (call for_SysUser user_dept_self) row_user_9_dept_8 = PyEval.Rows true.
Proof.
  assert (Hall : forall r, In r (role (user user_dept_self)) ->
                           data_scope r <> DATA_SCOPE_ALL).
  { simpl. intros r [<- | [<- | []]]; discriminate. }
  assert (Hne : role (user user_dept_self) <> []) by discriminate.
  split; [reflexivity|]. split; [reflexivity|]. split.
  - destruct (C3_or_of_roles for_SysUser user_dept_self false
                (sample_reading user_dept_self) row_user_2_dept_5
                eq_refl eq_refl Hall Hne) as [_ [b [Heval Hor]]].
    rewrite Heval. f_equal. apply Hor.
    exists (mkRole 21 "3"). split; [simpl; auto | reflexivity].
  - destruct (C3_or_of_roles for_SysUser user_dept_self false
                (sample_reading user_dept_self) row_user_9_dept_8
                eq_refl eq_refl Hall Hne) as [_ [b [Heval Hor]]].
    rewrite Heval. f_equal. apply Hor.
    exists (mkRole 22 "5"). split; [simpl; auto | reflexivity].
Defined.

(** Evaluated, the row that meets neither condition is kept out; and a text
    that called another conjunction, or none, would not be the OR. *)
Example evaluated_text_is_the_or :
  PyEval.eval_where false (sample_reading user_dept_self)
    (call for_SysUser user_dept_self) row_user_2_dept_8 = PyEval.Rows false
  /\ PyEval.eval_where false (sample_reading user_dept_self)
       "and_(SysUser.dept_id == 5 if hasattr(SysUser, 'dept_id') else 1 == 0, SysUser.user_id == 9 if hasattr(SysUser, 'user_id') else 1 == 0)"
       row_user_2_dept_5 = PyEval.Rows false
  /\ PyEval.eval_where false (sample_reading user_dept_self) "" row_user_2_dept_5
     = PyEval.SyntaxError.
Proof. repeat split. Qed.

(** C8 as claimed fails: the DEPT_AND_CHILD operand of the user of
    department 5 does not let a row of department 5 through when 5 is not a
    department record, although the row's department equals the user's
    own. *)
Lemma C8_counterexample :
  role_branch for_SysUser user_dept_and_child (mkRole 40 "4")
  = Append (render for_SysUser (Guarded "dept_id" (In_dept_subtree 5)))
  /\ ~ (operand_admits SysUser (Db.mk [] []) (Guarded "dept_id" (In_dept_subtree 5))
          row_user_2_dept_5 = Ok true
        <-> exists v, row_user_2_dept_5 "dept_id" = Some v
                      /\ (v = dept_id (user user_dept_and_child)
                          \/ exists x, In x (Db.sys_dept (Db.mk [] []))
                                       /\ Db.d_dept_id x = v
                                       /\ In (Py.str_int (dept_id (user user_dept_and_child)))
                                             (Py.split_commas (Db.d_ancestors x)))).
Proof.
  split; [reflexivity|].
  intros [_ H].
  assert (E : operand_admits SysUser (Db.mk [] []) (Guarded "dept_id" (In_dept_subtree 5))
                row_user_2_dept_5 = Ok true).
  { apply H. exists 5%Z. split; [reflexivity | now left]. }
  vm_compute in E. discriminate.
Qed.
